(** * Lifecycle of the proxy node (internal/proxy/proxy.go)

    A shallow embedding of [CreateProxy], [Start], [Close] and their helpers.
    The Go code is sequential glue around external collaborators (allocators,
    message streams, the task scheduler, gRPC): what it decides is which calls
    are made, with which arguments, in which order, and what happens to an
    error.  The embedding therefore runs every function in a small monad that
    threads the heap holding the [Proxy] struct, returns one of Go's three
    outcomes (return, panic, process exit) and records the external calls in
    the order in which they are issued.

    External calls are recorded at the point of call.  What they answer is
    read from an environment [Env]; a call that blocks ([DialContext] with
    [WithBlock], [Serve], [GracefulStop], [WaitGroup.Wait]) is recorded when
    it is issued and the embedding continues with the statement after it, that
    is, the embedding describes the executions in which these calls return. *)

From Stdlib Require Import ZArith String List Lia.
From stdpp Require Import base option list gmap strings.

Local Open Scope string_scope.
Local Open Scope list_scope.
Local Open Scope Z_scope.

(** ** Values *)

Definition Addr := string.
Definition Error := string.
Definition loc := nat.
Definition Duration := Z.

(** [time.Second], in nanoseconds. *)
Definition Second : Duration := 1000000000.

(** A [context.Context]: the background context, or a context derived from a
    parent.  Every derivation gets an identity of its own ([id]), as two
    calls of [context.WithCancel] on one parent give two contexts. *)
Inductive Ctx :=
| Background
| WithCancel (id : nat) (parent : Ctx)
| WithTimeout (id : nat) (timeout : Duration) (parent : Ctx).

(** The [cancel] function returned with a derived context: it cancels the
    context of that identity. *)
Definition CancelFunc := nat.

Definition ctx_id (c : Ctx) : option nat :=
  match c with
  | Background => None
  | WithCancel i _ => Some i
  | WithTimeout i _ _ => Some i
  end.

(** The deadline a context carries, if any. *)
Fixpoint ctx_timeout (c : Ctx) : option Duration :=
  match c with
  | Background => None
  | WithCancel _ parent => ctx_timeout parent
  | WithTimeout _ d parent =>
      match ctx_timeout parent with
      | Some d' => Some (Z.min d d')
      | None => Some d
      end
  end.

(** A value of type [func()] registered as a callback, known by its name. *)
Definition Callback := nat.

(** The components a [Proxy] owns, named after the field that holds them. *)
Inductive Component :=
| manipulationMsgStream_
| queryMsgStream_
| idAllocator_
| tsoAllocator_
| segAssigner_
| sched_.

Global Instance Component_eq_dec : EqDecision Component.
Proof. solve_decision. Defined.

Global Instance Ctx_eq_dec : EqDecision Ctx.
Proof. solve_decision. Defined.

(** The objects behind the fields, as far as this file sees them: what they
    were constructed from and what was configured on them. *)
Record PulsarMsgStream := {
  ms_ctx : Ctx;
  ms_bufSize : Z;
  ms_client : option Addr;
  ms_producers : list string
}.

Record IDAllocator := { ida_ctx : Ctx; ida_masterAddr : Addr }.
Record TimestampAllocator := { tsa_ctx : Ctx; tsa_masterAddr : Addr }.
Record SegIDAssigner := { sia_ctx : Ctx; sia_masterAddr : Addr }.
Record TaskScheduler := {
  ts_ctx : Ctx;
  ts_idAllocator : option IDAllocator;
  ts_tsoAllocator : option TimestampAllocator
}.

Record ClientConn := { conn_ctx : Ctx; conn_target : Addr }.
Record MasterClient := { mc_conn : ClientConn }.
Inductive GrpcServer := NewServer_.

(** ** The Proxy struct *)

Record Proxy := {
  proxyLoopCtx : Ctx;
  proxyLoopCancel : CancelFunc;
  proxyLoopWg : Z;

  grpcServer : option GrpcServer;
  masterConn : option ClientConn;
  masterClient : option MasterClient;
  sched : option TaskScheduler;

  idAllocator : option IDAllocator;
  tsoAllocator : option TimestampAllocator;
  segAssigner : option SegIDAssigner;

  manipulationMsgStream : option PulsarMsgStream;
  queryMsgStream : option PulsarMsgStream;

  startCallbacks : list Callback;
  closeCallbacks : list Callback
}.

(** Field assignments [p.f = v]. *)
Definition set_proxyLoopWg (v : Z) (p : Proxy) : Proxy :=
  {| proxyLoopCtx := proxyLoopCtx p; proxyLoopCancel := proxyLoopCancel p;
     proxyLoopWg := v; grpcServer := grpcServer p;
     masterConn := masterConn p; masterClient := masterClient p;
     sched := sched p; idAllocator := idAllocator p;
     tsoAllocator := tsoAllocator p; segAssigner := segAssigner p;
     manipulationMsgStream := manipulationMsgStream p;
     queryMsgStream := queryMsgStream p;
     startCallbacks := startCallbacks p; closeCallbacks := closeCallbacks p |}.

Definition set_grpcServer (v : option GrpcServer) (p : Proxy) : Proxy :=
  {| proxyLoopCtx := proxyLoopCtx p; proxyLoopCancel := proxyLoopCancel p;
     proxyLoopWg := proxyLoopWg p; grpcServer := v;
     masterConn := masterConn p; masterClient := masterClient p;
     sched := sched p; idAllocator := idAllocator p;
     tsoAllocator := tsoAllocator p; segAssigner := segAssigner p;
     manipulationMsgStream := manipulationMsgStream p;
     queryMsgStream := queryMsgStream p;
     startCallbacks := startCallbacks p; closeCallbacks := closeCallbacks p |}.

Definition set_masterConn (v : option ClientConn) (p : Proxy) : Proxy :=
  {| proxyLoopCtx := proxyLoopCtx p; proxyLoopCancel := proxyLoopCancel p;
     proxyLoopWg := proxyLoopWg p; grpcServer := grpcServer p;
     masterConn := v; masterClient := masterClient p;
     sched := sched p; idAllocator := idAllocator p;
     tsoAllocator := tsoAllocator p; segAssigner := segAssigner p;
     manipulationMsgStream := manipulationMsgStream p;
     queryMsgStream := queryMsgStream p;
     startCallbacks := startCallbacks p; closeCallbacks := closeCallbacks p |}.

Definition set_masterClient (v : option MasterClient) (p : Proxy) : Proxy :=
  {| proxyLoopCtx := proxyLoopCtx p; proxyLoopCancel := proxyLoopCancel p;
     proxyLoopWg := proxyLoopWg p; grpcServer := grpcServer p;
     masterConn := masterConn p; masterClient := v;
     sched := sched p; idAllocator := idAllocator p;
     tsoAllocator := tsoAllocator p; segAssigner := segAssigner p;
     manipulationMsgStream := manipulationMsgStream p;
     queryMsgStream := queryMsgStream p;
     startCallbacks := startCallbacks p; closeCallbacks := closeCallbacks p |}.

Definition set_sched (v : option TaskScheduler) (p : Proxy) : Proxy :=
  {| proxyLoopCtx := proxyLoopCtx p; proxyLoopCancel := proxyLoopCancel p;
     proxyLoopWg := proxyLoopWg p; grpcServer := grpcServer p;
     masterConn := masterConn p; masterClient := masterClient p;
     sched := v; idAllocator := idAllocator p;
     tsoAllocator := tsoAllocator p; segAssigner := segAssigner p;
     manipulationMsgStream := manipulationMsgStream p;
     queryMsgStream := queryMsgStream p;
     startCallbacks := startCallbacks p; closeCallbacks := closeCallbacks p |}.

Definition set_idAllocator (v : option IDAllocator) (p : Proxy) : Proxy :=
  {| proxyLoopCtx := proxyLoopCtx p; proxyLoopCancel := proxyLoopCancel p;
     proxyLoopWg := proxyLoopWg p; grpcServer := grpcServer p;
     masterConn := masterConn p; masterClient := masterClient p;
     sched := sched p; idAllocator := v;
     tsoAllocator := tsoAllocator p; segAssigner := segAssigner p;
     manipulationMsgStream := manipulationMsgStream p;
     queryMsgStream := queryMsgStream p;
     startCallbacks := startCallbacks p; closeCallbacks := closeCallbacks p |}.

Definition set_tsoAllocator (v : option TimestampAllocator) (p : Proxy) : Proxy :=
  {| proxyLoopCtx := proxyLoopCtx p; proxyLoopCancel := proxyLoopCancel p;
     proxyLoopWg := proxyLoopWg p; grpcServer := grpcServer p;
     masterConn := masterConn p; masterClient := masterClient p;
     sched := sched p; idAllocator := idAllocator p;
     tsoAllocator := v; segAssigner := segAssigner p;
     manipulationMsgStream := manipulationMsgStream p;
     queryMsgStream := queryMsgStream p;
     startCallbacks := startCallbacks p; closeCallbacks := closeCallbacks p |}.

Definition set_segAssigner (v : option SegIDAssigner) (p : Proxy) : Proxy :=
  {| proxyLoopCtx := proxyLoopCtx p; proxyLoopCancel := proxyLoopCancel p;
     proxyLoopWg := proxyLoopWg p; grpcServer := grpcServer p;
     masterConn := masterConn p; masterClient := masterClient p;
     sched := sched p; idAllocator := idAllocator p;
     tsoAllocator := tsoAllocator p; segAssigner := v;
     manipulationMsgStream := manipulationMsgStream p;
     queryMsgStream := queryMsgStream p;
     startCallbacks := startCallbacks p; closeCallbacks := closeCallbacks p |}.

Definition set_manipulationMsgStream (v : option PulsarMsgStream) (p : Proxy) : Proxy :=
  {| proxyLoopCtx := proxyLoopCtx p; proxyLoopCancel := proxyLoopCancel p;
     proxyLoopWg := proxyLoopWg p; grpcServer := grpcServer p;
     masterConn := masterConn p; masterClient := masterClient p;
     sched := sched p; idAllocator := idAllocator p;
     tsoAllocator := tsoAllocator p; segAssigner := segAssigner p;
     manipulationMsgStream := v;
     queryMsgStream := queryMsgStream p;
     startCallbacks := startCallbacks p; closeCallbacks := closeCallbacks p |}.

Definition set_queryMsgStream (v : option PulsarMsgStream) (p : Proxy) : Proxy :=
  {| proxyLoopCtx := proxyLoopCtx p; proxyLoopCancel := proxyLoopCancel p;
     proxyLoopWg := proxyLoopWg p; grpcServer := grpcServer p;
     masterConn := masterConn p; masterClient := masterClient p;
     sched := sched p; idAllocator := idAllocator p;
     tsoAllocator := tsoAllocator p; segAssigner := segAssigner p;
     manipulationMsgStream := manipulationMsgStream p;
     queryMsgStream := v;
     startCallbacks := startCallbacks p; closeCallbacks := closeCallbacks p |}.

Definition set_startCallbacks (v : list Callback) (p : Proxy) : Proxy :=
  {| proxyLoopCtx := proxyLoopCtx p; proxyLoopCancel := proxyLoopCancel p;
     proxyLoopWg := proxyLoopWg p; grpcServer := grpcServer p;
     masterConn := masterConn p; masterClient := masterClient p;
     sched := sched p; idAllocator := idAllocator p;
     tsoAllocator := tsoAllocator p; segAssigner := segAssigner p;
     manipulationMsgStream := manipulationMsgStream p;
     queryMsgStream := queryMsgStream p;
     startCallbacks := v; closeCallbacks := closeCallbacks p |}.

Definition set_closeCallbacks (v : list Callback) (p : Proxy) : Proxy :=
  {| proxyLoopCtx := proxyLoopCtx p; proxyLoopCancel := proxyLoopCancel p;
     proxyLoopWg := proxyLoopWg p; grpcServer := grpcServer p;
     masterConn := masterConn p; masterClient := masterClient p;
     sched := sched p; idAllocator := idAllocator p;
     tsoAllocator := tsoAllocator p; segAssigner := segAssigner p;
     manipulationMsgStream := manipulationMsgStream p;
     queryMsgStream := queryMsgStream p;
     startCallbacks := startCallbacks p; closeCallbacks := v |}.

(** ** External calls and the environment *)

Inductive DialOption := WithInsecure | WithBlock.

Global Instance DialOption_eq_dec : EqDecision DialOption.
Proof. solve_decision. Defined.

Record Listener := { lis_network : string; lis_address : string }.

(** A goroutine started with [go]: the function and its receiver. *)
Inductive Routine := grpcLoop_ (p : loc).

(** The calls that leave this file, in the order in which they are issued.
    [EConnClose] stands for [ClientConn.Close], which no function of the
    file calls; it is there so that this can be stated. *)
Inductive Event :=
| ERandSeed
| EInitParamTable
| ELog (msg : string)
| EFatal (msg : string)
| ENewPulsarMsgStream (c : Component) (ctx : Ctx) (bufSize : Z)
| ESetPulsarClient (c : Component) (address : Addr)
| ECreatePulsarProducers (c : Component) (channels : list string)
| ENewIDAllocator (ctx : Ctx) (masterAddr : Addr)
| ENewTimestampAllocator (ctx : Ctx) (masterAddr : Addr)
| ENewSegIDAssigner (ctx : Ctx) (masterAddr : Addr)
| ENewTaskScheduler (ctx : Ctx)
| EDialContext (ctx : Ctx) (target : Addr) (opts : list DialOption)
| EConnClose (conn : ClientConn)
| ENewMasterClient (conn : ClientConn)
| EInitGlobalMetaCache (ctx : Ctx) (client : option MasterClient)
| EStart (c : Component)
| EClose (c : Component) (clean : bool)
| ECallback (cb : Callback)
| EWgAdd (delta : Z)
| EWgDone
| EWgWait
| EGo (r : Routine)
| EListen (network address : string)
| ENewServer
| ERegisterMilvusServiceServer
| EServe (lis : Listener)
| EGracefulStop
| ECancel (id : nat).

(** What the collaborators answer.  An error is [Some e], success is [None]
    (Go's [nil]).  [Close_clean c] tells whether component [c] manages to
    close cleanly; its [Close] method hands nothing back to the caller. *)
Record Env := {
  PulsarAddress : Addr;
  MasterAddress : Addr;
  NewIDAllocator_err : option Error;
  NewTimestampAllocator_err : option Error;
  NewSegIDAssigner_err : option Error;
  NewTaskScheduler_err : option Error;
  DialContext_err : Addr -> option Error;
  Listen_err : string -> string -> option Error;
  Serve_err : option Error;
  Close_clean : Component -> bool
}.

(** ** The world a function runs in *)

Record World := {
  env : Env;
  heap : gmap loc Proxy;
  next_loc : loc;
  next_ctx : nat;
  cancelled : list nat;
  spawned : list Routine
}.

Definition with_heap (h : gmap loc Proxy) (n : loc) (w : World) : World :=
  {| env := env w; heap := h; next_loc := n; next_ctx := next_ctx w;
     cancelled := cancelled w; spawned := spawned w |}.

Definition with_next_ctx (n : nat) (w : World) : World :=
  {| env := env w; heap := heap w; next_loc := next_loc w; next_ctx := n;
     cancelled := cancelled w; spawned := spawned w |}.

Definition with_cancelled (l : list nat) (w : World) : World :=
  {| env := env w; heap := heap w; next_loc := next_loc w;
     next_ctx := next_ctx w; cancelled := l; spawned := spawned w |}.

Definition with_spawned (l : list Routine) (w : World) : World :=
  {| env := env w; heap := heap w; next_loc := next_loc w;
     next_ctx := next_ctx w; cancelled := cancelled w; spawned := l |}.

(** ** The monad: state, three outcomes, and the calls issued *)

Inductive Outcome (A : Type) :=
| Returns (a : A)
| Panics (e : Error)
| Exits (code : Z).
Arguments Returns {A} a.
Arguments Panics {A} e.
Arguments Exits {A} code.

Record Result (A : Type) := {
  outcome : Outcome A;
  final : World;
  events : list Event
}.
Arguments outcome {A} r.
Arguments final {A} r.
Arguments events {A} r.

Definition Go (A : Type) : Type := World -> Result A.

Global Instance Go_ret : MRet Go := fun A a w =>
  {| outcome := Returns a; final := w; events := [] |}.

Global Instance Go_bind : MBind Go := fun A B f m w =>
  let r := m w in
  match outcome r with
  | Returns a =>
      let r' := f a (final r) in
      {| outcome := outcome r'; final := final r';
         events := events r ++ events r' |}
  | Panics e => {| outcome := Panics e; final := final r; events := events r |}
  | Exits c => {| outcome := Exits c; final := final r; events := events r |}
  end.

Definition emit (e : Event) : Go unit := fun w =>
  {| outcome := Returns tt; final := w; events := [e] |}.

Definition panic {A} (e : Error) : Go A := fun w =>
  {| outcome := Panics e; final := w; events := [] |}.

(** [os.Exit]: the process ends, deferred calls do not run. *)
Definition os_Exit {A} (code : Z) : Go A := fun w =>
  {| outcome := Exits code; final := w; events := [] |}.

Definition gets {A} (f : World -> A) : Go A := fun w =>
  {| outcome := Returns (f w); final := w; events := [] |}.

Definition modify_world (f : World -> World) : Go unit := fun w =>
  {| outcome := Returns tt; final := f w; events := [] |}.

(** [defer d] at the head of a body: [d] runs when the body returns or
    panics, and not when the process exits. *)
Definition defer_ {A} (d : Go unit) (body : Go A) : Go A := fun w =>
  let r := body w in
  match outcome r with
  | Exits c => r
  | o =>
      let r' := d (final r) in
      {| outcome := match outcome r' with
                    | Returns _ => o
                    | Panics e => Panics e
                    | Exits c => Exits c
                    end;
         final := final r'; events := events r ++ events r' |}
  end.

(** [for _, x := range l { body x }] *)
Fixpoint for_range {A} (l : list A) (body : A -> Go unit) : Go unit :=
  match l with
  | [] => mret tt
  | x :: l' => body x ;; for_range l' body
  end.

(** *** The heap *)

Definition nil_dereference : Error :=
  "invalid memory address or nil pointer dereference".

Definition alloc (v : Proxy) : Go loc := fun w =>
  {| outcome := Returns (next_loc w);
     final := with_heap (<[next_loc w := v]> (heap w)) (S (next_loc w)) w;
     events := [] |}.

Definition load (p : loc) : Go Proxy := fun w =>
  match heap w !! p with
  | Some v => {| outcome := Returns v; final := w; events := [] |}
  | None => {| outcome := Panics nil_dereference; final := w; events := [] |}
  end.

Definition store (p : loc) (v : Proxy) : Go unit := fun w =>
  {| outcome := Returns tt;
     final := with_heap (<[p := v]> (heap w)) (next_loc w) w;
     events := [] |}.

(** [p.f = v] *)
Definition assign (p : loc) (f : Proxy -> Proxy) : Go unit :=
  v ← load p; store p (f v).

(** *** log *)

Definition log_Printf (msg : string) : Go unit := emit (ELog msg).
Definition log_Print (msg : string) : Go unit := emit (ELog msg).

(** [log.Fatalf] prints and calls [os.Exit(1)]. *)
Definition log_Fatalf {A} (msg : string) : Go A :=
  emit (EFatal msg) ;; os_Exit 1.

(** *** context *)

Definition context_WithCancel (parent : Ctx) : Go (Ctx * CancelFunc) :=
  i ← gets next_ctx;
  modify_world (with_next_ctx (S i)) ;;
  mret (WithCancel i parent, i).

Definition context_WithTimeout (parent : Ctx) (d : Duration)
  : Go (Ctx * CancelFunc) :=
  i ← gets next_ctx;
  modify_world (with_next_ctx (S i)) ;;
  mret (WithTimeout i d parent, i).

(** Calling a [cancel] function. *)
Definition call_cancel (cancel : CancelFunc) : Go unit :=
  emit (ECancel cancel) ;;
  modify_world (fun w => with_cancelled (cancel :: cancelled w) w).

Definition is_cancelled (c : Ctx) (w : World) : bool :=
  match ctx_id c with
  | Some i => bool_decide (i ∈ cancelled w)
  | None => false
  end.

(** *** Params, rand *)

Definition Params_InitParamTable : Go unit := emit EInitParamTable.
Definition Params_PulsarAddress : Go Addr := gets (fun w => PulsarAddress (env w)).
Definition Params_MasterAddress : Go Addr := gets (fun w => MasterAddress (env w)).

(** [rand.Seed(time.Now().UnixNano())] *)
Definition rand_Seed : Go unit := emit ERandSeed.

(** *** msgstream *)

Definition msgstream_NewPulsarMsgStream (c : Component) (ctx : Ctx)
  (bufSize : Z) : Go PulsarMsgStream :=
  emit (ENewPulsarMsgStream c ctx bufSize) ;;
  mret {| ms_ctx := ctx; ms_bufSize := bufSize; ms_client := None;
          ms_producers := [] |}.

(** [p.f.SetPulsarClient(address)] on the stream held in field [f]; [get] and
    [set] read and write that field. *)
Definition SetPulsarClient (c : Component)
  (get : Proxy -> option PulsarMsgStream)
  (set : option PulsarMsgStream -> Proxy -> Proxy)
  (p : loc) (address : Addr) : Go unit :=
  v ← load p;
  match get v with
  | None => panic nil_dereference
  | Some s =>
      emit (ESetPulsarClient c address) ;;
      store p (set (Some {| ms_ctx := ms_ctx s; ms_bufSize := ms_bufSize s;
                            ms_client := Some address;
                            ms_producers := ms_producers s |}) v)
  end.

Definition CreatePulsarProducers (c : Component)
  (get : Proxy -> option PulsarMsgStream)
  (set : option PulsarMsgStream -> Proxy -> Proxy)
  (p : loc) (channels : list string) : Go unit :=
  v ← load p;
  match get v with
  | None => panic nil_dereference
  | Some s =>
      emit (ECreatePulsarProducers c channels) ;;
      store p (set (Some {| ms_ctx := ms_ctx s; ms_bufSize := ms_bufSize s;
                            ms_client := ms_client s;
                            ms_producers := ms_producers s ++ channels |}) v)
  end.

(** *** allocator, scheduler: constructors that may fail *)

Definition allocator_NewIDAllocator (ctx : Ctx) (masterAddr : Addr)
  : Go (option IDAllocator * option Error) :=
  emit (ENewIDAllocator ctx masterAddr) ;;
  err ← gets (fun w => NewIDAllocator_err (env w));
  match err with
  | Some e => mret (None, Some e)
  | None => mret (Some {| ida_ctx := ctx; ida_masterAddr := masterAddr |}, None)
  end.

Definition allocator_NewTimestampAllocator (ctx : Ctx) (masterAddr : Addr)
  : Go (option TimestampAllocator * option Error) :=
  emit (ENewTimestampAllocator ctx masterAddr) ;;
  err ← gets (fun w => NewTimestampAllocator_err (env w));
  match err with
  | Some e => mret (None, Some e)
  | None => mret (Some {| tsa_ctx := ctx; tsa_masterAddr := masterAddr |}, None)
  end.

Definition allocator_NewSegIDAssigner (ctx : Ctx) (masterAddr : Addr)
  : Go (option SegIDAssigner * option Error) :=
  emit (ENewSegIDAssigner ctx masterAddr) ;;
  err ← gets (fun w => NewSegIDAssigner_err (env w));
  match err with
  | Some e => mret (None, Some e)
  | None => mret (Some {| sia_ctx := ctx; sia_masterAddr := masterAddr |}, None)
  end.

Definition NewTaskScheduler (ctx : Ctx) (idAlloc : option IDAllocator)
  (tsoAlloc : option TimestampAllocator)
  : Go (option TaskScheduler * option Error) :=
  emit (ENewTaskScheduler ctx) ;;
  err ← gets (fun w => NewTaskScheduler_err (env w));
  match err with
  | Some e => mret (None, Some e)
  | None => mret (Some {| ts_ctx := ctx; ts_idAllocator := idAlloc;
                          ts_tsoAllocator := tsoAlloc |}, None)
  end.

Definition initGlobalMetaCache (ctx : Ctx) (client : option MasterClient)
  (idAlloc : option IDAllocator) (tsoAlloc : option TimestampAllocator)
  : Go unit :=
  emit (EInitGlobalMetaCache ctx client).

(** *** Methods of the owned components *)

Definition is_nil (c : Component) (v : Proxy) : bool :=
  match c with
  | manipulationMsgStream_ => bool_decide (manipulationMsgStream v = None)
  | queryMsgStream_ => bool_decide (queryMsgStream v = None)
  | idAllocator_ => bool_decide (idAllocator v = None)
  | tsoAllocator_ => bool_decide (tsoAllocator v = None)
  | segAssigner_ => bool_decide (segAssigner v = None)
  | sched_ => bool_decide (sched v = None)
  end.

(** [p.c.Start()] *)
Definition call_Start (p : loc) (c : Component) : Go unit :=
  v ← load p;
  if is_nil c v then panic nil_dereference else emit (EStart c).

(** [p.c.Close()]: nothing comes back from the call. *)
Definition call_Close (p : loc) (c : Component) : Go unit :=
  v ← load p;
  if is_nil c v then panic nil_dereference
  else (clean ← gets (fun w => Close_clean (env w) c); emit (EClose c clean)).

(** [cb()] *)
Definition call_Callback (cb : Callback) : Go unit := emit (ECallback cb).

(** *** sync.WaitGroup, held by value in [proxyLoopWg] *)

Definition wg_Add (p : loc) (delta : Z) : Go unit :=
  v ← load p;
  emit (EWgAdd delta) ;;
  if proxyLoopWg v + delta <? 0 then panic "sync: negative WaitGroup counter"
  else store p (set_proxyLoopWg (proxyLoopWg v + delta) v).

Definition wg_Done (p : loc) : Go unit :=
  v ← load p;
  emit EWgDone ;;
  if proxyLoopWg v - 1 <? 0 then panic "sync: negative WaitGroup counter"
  else store p (set_proxyLoopWg (proxyLoopWg v - 1) v).

Definition wg_Wait (p : loc) : Go unit :=
  _ ← load p; emit EWgWait.

(** *** net, grpc *)

Definition net_Listen (network address : string)
  : Go (option Listener * option Error) :=
  emit (EListen network address) ;;
  err ← gets (fun w => Listen_err (env w) network address);
  match err with
  | Some e => mret (None, Some e)
  | None => mret (Some {| lis_network := network; lis_address := address |},
                  None)
  end.

Definition grpc_DialContext (ctx : Ctx) (target : Addr)
  (opts : list DialOption) : Go (option ClientConn * option Error) :=
  emit (EDialContext ctx target opts) ;;
  err ← gets (fun w => DialContext_err (env w) target);
  match err with
  | Some e => mret (None, Some e)
  | None => mret (Some {| conn_ctx := ctx; conn_target := target |}, None)
  end.

Definition masterpb_NewMasterClient (conn : option ClientConn)
  : Go (option MasterClient) :=
  match conn with
  | Some c => emit (ENewMasterClient c) ;; mret (Some {| mc_conn := c |})
  | None => panic nil_dereference
  end.

Definition grpc_NewServer : Go GrpcServer := emit ENewServer ;; mret NewServer_.

Definition servicepb_RegisterMilvusServiceServer (s : option GrpcServer)
  (p : loc) : Go unit :=
  match s with
  | Some _ => emit ERegisterMilvusServiceServer
  | None => panic nil_dereference
  end.

(** [s.Serve(lis)]: what it eventually returns. *)
Definition Serve (s : option GrpcServer) (lis : option Listener)
  : Go (option Error) :=
  match s, lis with
  | Some _, Some l => emit (EServe l) ;; gets (fun w => Serve_err (env w))
  | _, _ => panic nil_dereference
  end.

Definition GracefulStop (s : GrpcServer) : Go unit := emit EGracefulStop.

(** [go f()] *)
Definition go (r : Routine) : Go unit :=
  emit (EGo r) ;;
  modify_world (fun w => with_spawned (spawned w ++ [r]) w).

(** ** The functions of proxy.go *)

Definition Init : Go unit := Params_InitParamTable.

Definition CreateProxy (ctx : Ctx) : Go (option loc * option Error) :=
  rand_Seed ;;
  '(ctx1, cancel) ← context_WithCancel ctx;
  p ← alloc {| proxyLoopCtx := ctx1; proxyLoopCancel := cancel;
               proxyLoopWg := 0; grpcServer := None; masterConn := None;
               masterClient := None; sched := None; idAllocator := None;
               tsoAllocator := None; segAssigner := None;
               manipulationMsgStream := None; queryMsgStream := None;
               startCallbacks := []; closeCallbacks := [] |};

  pulsarAddress ← Params_PulsarAddress;
  let bufSize := 1000 in
  let manipulationChannels := ["manipulation"] in
  let queryChannels := ["query"] in

  v ← load p;
  s ← msgstream_NewPulsarMsgStream manipulationMsgStream_ (proxyLoopCtx v) bufSize;
  assign p (set_manipulationMsgStream (Some s)) ;;
  SetPulsarClient manipulationMsgStream_ manipulationMsgStream
    set_manipulationMsgStream p pulsarAddress ;;
  CreatePulsarProducers manipulationMsgStream_ manipulationMsgStream
    set_manipulationMsgStream p manipulationChannels ;;

  v ← load p;
  s ← msgstream_NewPulsarMsgStream queryMsgStream_ (proxyLoopCtx v) bufSize;
  assign p (set_queryMsgStream (Some s)) ;;
  SetPulsarClient queryMsgStream_ queryMsgStream set_queryMsgStream
    p pulsarAddress ;;
  CreatePulsarProducers queryMsgStream_ queryMsgStream set_queryMsgStream
    p queryChannels ;;

  masterAddr ← Params_MasterAddress;
  v ← load p;
  '(idAlloc, err) ← allocator_NewIDAllocator (proxyLoopCtx v) masterAddr;
  match err with
  | Some e => mret (None, Some e)
  | None =>
  assign p (set_idAllocator idAlloc) ;;

  v ← load p;
  '(tsoAlloc, err) ← allocator_NewTimestampAllocator (proxyLoopCtx v) masterAddr;
  match err with
  | Some e => mret (None, Some e)
  | None =>
  assign p (set_tsoAllocator tsoAlloc) ;;

  v ← load p;
  '(segAssign, err) ← allocator_NewSegIDAssigner (proxyLoopCtx v) masterAddr;
  match err with
  | Some e => panic e
  | None =>
  assign p (set_segAssigner segAssign) ;;

  v ← load p;
  '(sch, err) ← NewTaskScheduler (proxyLoopCtx v) (idAllocator v) (tsoAllocator v);
  assign p (set_sched sch) ;;
  match err with
  | Some e => mret (None, Some e)
  | None => mret (Some p, None)
  end
  end end end.

(** AddStartCallback adds a callback in the startServer phase. *)
Definition AddStartCallback (p : loc) (callbacks : list Callback) : Go unit :=
  v ← load p;
  store p (set_startCallbacks (startCallbacks v ++ callbacks) v).

(** AddCloseCallback adds a callback in the Close phase. *)
Definition AddCloseCallback (p : loc) (callbacks : list Callback) : Go unit :=
  v ← load p;
  store p (set_closeCallbacks (closeCallbacks v ++ callbacks) v).

Definition connectMaster (p : loc) : Go (option Error) :=
  masterAddr ← Params_MasterAddress;
  log_Printf ("Proxy connected to master, master_addr=" +:+ masterAddr) ;;
  '(ctx, cancel) ← context_WithTimeout Background (10 * Second);
  defer_ (call_cancel cancel) (
    '(conn, err) ← grpc_DialContext ctx masterAddr [WithInsecure; WithBlock];
    match err with
    | Some e =>
        log_Printf ("Proxy connect to master failed, error= " +:+ e) ;;
        mret (Some e)
    | None =>
        log_Printf ("Proxy connected to master, master_addr=" +:+ masterAddr) ;;
        assign p (set_masterConn conn) ;;
        client ← masterpb_NewMasterClient conn;
        assign p (set_masterClient client) ;;
        mret None
    end).

Definition grpcLoop (p : loc) : Go unit :=
  defer_ (wg_Done p) (
    '(lis, err) ← net_Listen "tcp" ":5053";
    match err with
    | Some e => log_Fatalf ("Proxy grpc server fatal error=" +:+ e)
    | None => mret tt
    end ;;
    s ← grpc_NewServer;
    assign p (set_grpcServer (Some s)) ;;
    v ← load p;
    servicepb_RegisterMilvusServiceServer (grpcServer v) p ;;
    v ← load p;
    err ← Serve (grpcServer v) lis;
    match err with
    | Some e => log_Fatalf ("Proxy grpc server fatal error=" +:+ e)
    | None => mret tt
    end).

Definition startProxy (p : loc) : Go (option Error) :=
  err ← connectMaster p;
  match err with
  | Some e => mret (Some e)
  | None =>
      v ← load p;
      initGlobalMetaCache (proxyLoopCtx v) (masterClient v) (idAllocator v)
        (tsoAllocator v) ;;
      call_Start p manipulationMsgStream_ ;;
      call_Start p queryMsgStream_ ;;
      call_Start p sched_ ;;
      call_Start p idAllocator_ ;;
      call_Start p tsoAllocator_ ;;
      call_Start p segAssigner_ ;;

      v ← load p;
      for_range (startCallbacks v) call_Callback ;;

      wg_Add p 1 ;;
      go (grpcLoop_ p) ;;

      mret None
  end.

Definition Start (p : loc) : Go (option Error) := startProxy p.

Definition stopProxyLoop (p : loc) : Go unit :=
  v ← load p;
  call_cancel (proxyLoopCancel v) ;;

  v ← load p;
  match grpcServer v with
  | Some s => GracefulStop s
  | None => mret tt
  end ;;
  call_Close p tsoAllocator_ ;;

  call_Close p idAllocator_ ;;

  call_Close p segAssigner_ ;;

  call_Close p sched_ ;;

  call_Close p manipulationMsgStream_ ;;

  call_Close p queryMsgStream_ ;;

  wg_Wait p.

(** Close closes the server. *)
Definition Close (p : loc) : Go unit :=
  stopProxyLoop p ;;

  v ← load p;
  for_range (closeCallbacks v) call_Callback ;;
  log_Print "proxy closed.".

(** ** Goroutines *)

Definition run_routine (r : Routine) : Go unit :=
  match r with
  | grpcLoop_ p => grpcLoop p
  end.

(** Run the goroutine that was spawned first and has not run yet. *)
Definition run_spawned : Go unit := fun w =>
  match spawned w with
  | [] => {| outcome := Returns tt; final := w; events := [] |}
  | r :: rest => (modify_world (with_spawned rest) ;; run_routine r) w
  end.

(** ** Running examples *)

Definition env0 : Env :=
  {| PulsarAddress := "pulsar://localhost:6650";
     MasterAddress := "localhost:53100";
     NewIDAllocator_err := None; NewTimestampAllocator_err := None;
     NewSegIDAssigner_err := None; NewTaskScheduler_err := None;
     DialContext_err := fun _ => None;
     Listen_err := fun _ _ => None;
     Serve_err := None;
     Close_clean := fun _ => true |}.

Definition world0 (e : Env) : World :=
  {| env := e; heap := ∅; next_loc := 1%nat; next_ctx := 0%nat; cancelled := [];
     spawned := [] |}.

(** * Vocabulary of the statements

    Runs, the worlds and traces the functions are proved to produce, the
    numberings of steps, and the worked examples. *)

(** [runs m w o es w']: started in world [w], [m] ends with outcome [o] in
    world [w'], having issued the calls [es] in this order. *)
Definition runs {A} (m : Go A) (w : World) (o : Outcome A) (es : list Event)
  (w' : World) : Prop :=
  m w = {| outcome := o; final := w'; events := es |}.

(** A proxy as [CreateProxy] hands it out: every component is there.  The
    counter of a [WaitGroup] is never negative. *)
Definition wf_proxy (v : Proxy) : Prop :=
  (forall c, is_nil c v = false) /\ 0 <= proxyLoopWg v.

(** The context [connectMaster] dials with, and the connection it gets. *)
Definition dial_ctx (w : World) : Ctx :=
  WithTimeout (next_ctx w) (10 * Second) Background.

Definition dial_conn (w : World) : ClientConn :=
  {| conn_ctx := dial_ctx w; conn_target := MasterAddress (env w) |}.

Definition connect_failed_events (w : World) (e : Error) : list Event :=
  [ ELog ("Proxy connected to master, master_addr=" +:+ MasterAddress (env w));
    EDialContext (dial_ctx w) (MasterAddress (env w)) [WithInsecure; WithBlock];
    ELog ("Proxy connect to master failed, error= " +:+ e);
    ECancel (next_ctx w) ].

Definition connect_events (w : World) : list Event :=
  [ ELog ("Proxy connected to master, master_addr=" +:+ MasterAddress (env w));
    EDialContext (dial_ctx w) (MasterAddress (env w)) [WithInsecure; WithBlock];
    ELog ("Proxy connected to master, master_addr=" +:+ MasterAddress (env w));
    ENewMasterClient (dial_conn w);
    ECancel (next_ctx w) ].

(** The world after a failed and after a successful [connectMaster]. *)
Definition after_dial (w : World) : World :=
  with_cancelled (next_ctx w :: cancelled w) (with_next_ctx (S (next_ctx w)) w).

Definition connected_proxy (w : World) (v : Proxy) : Proxy :=
  set_masterClient (Some {| mc_conn := dial_conn w |})
    (set_masterConn (Some (dial_conn w)) v).

Definition after_connect (p : loc) (v : Proxy) (w : World) : World :=
  with_heap
    (<[p := connected_proxy w v]>
       (<[p := set_masterConn (Some (dial_conn w)) v]> (heap w)))
    (next_loc w) (after_dial w).

(** The proxy and the world after a successful [startProxy], and the calls
    it has issued. *)
Definition started_proxy (w : World) (v : Proxy) : Proxy :=
  set_proxyLoopWg (proxyLoopWg v + 1) (connected_proxy w v).

Definition after_start (p : loc) (v : Proxy) (w : World) : World :=
  with_spawned (spawned w ++ [grpcLoop_ p])
    (with_heap (<[p := started_proxy w v]> (heap (after_connect p v w)))
       (next_loc w) (after_connect p v w)).

Definition component_start_events : list Event :=
  [ EStart manipulationMsgStream_; EStart queryMsgStream_;
    EStart sched_;
    EStart idAllocator_; EStart tsoAllocator_; EStart segAssigner_ ].

Definition start_events (p : loc) (v : Proxy) (w : World) : list Event :=
  connect_events w ++
  [ EInitGlobalMetaCache (proxyLoopCtx v) (Some {| mc_conn := dial_conn w |}) ] ++
  component_start_events ++
  map ECallback (startCallbacks v) ++
  [ EWgAdd 1; EGo (grpcLoop_ p) ].

(** The listener of [grpcLoop], and the world in which it serves. *)
Definition endpoint : Listener :=
  {| lis_network := "tcp"; lis_address := ":5053" |}.

Definition serving_world (p : loc) (v : Proxy) (w : World) : World :=
  with_heap (<[p := set_grpcServer (Some NewServer_) v]> (heap w))
    (next_loc w) w.

(** The calls of [stopProxyLoop] and of [Close], and the world after them. *)
Definition stop_events (v : Proxy) : list Event :=
  match grpcServer v with
  | Some _ => [EGracefulStop]
  | None => []
  end.

Definition component_close_events (e : Env) : list Event :=
  [ EClose tsoAllocator_ (Close_clean e tsoAllocator_);
    EClose idAllocator_ (Close_clean e idAllocator_);
    EClose segAssigner_ (Close_clean e segAssigner_);
    EClose sched_ (Close_clean e sched_);
    EClose manipulationMsgStream_ (Close_clean e manipulationMsgStream_);
    EClose queryMsgStream_ (Close_clean e queryMsgStream_) ].

Definition stopProxyLoop_events (v : Proxy) (w : World) : list Event :=
  [ ECancel (proxyLoopCancel v) ] ++
  stop_events v ++
  component_close_events (env w) ++
  [ EWgWait ].

Definition close_events (v : Proxy) (w : World) : list Event :=
  stopProxyLoop_events v w ++
  map ECallback (closeCallbacks v) ++
  [ ELog "proxy closed." ].

Definition after_close (v : Proxy) (w : World) : World :=
  with_cancelled (proxyLoopCancel v :: cancelled w) w.

(** The context [CreateProxy] derives, and the proxy it builds when every
    constructor succeeds. *)
Definition created_ctx (ctx : Ctx) (w : World) : Ctx :=
  WithCancel (next_ctx w) ctx.

Definition created_proxy (ctx : Ctx) (w : World) : Proxy :=
  let ctx1 := created_ctx ctx w in
  let ida := {| ida_ctx := ctx1; ida_masterAddr := MasterAddress (env w) |} in
  let tsa := {| tsa_ctx := ctx1; tsa_masterAddr := MasterAddress (env w) |} in
  {| proxyLoopCtx := ctx1;
     proxyLoopCancel := next_ctx w;
     proxyLoopWg := 0;
     grpcServer := None; masterConn := None; masterClient := None;
     sched := Some {| ts_ctx := ctx1; ts_idAllocator := Some ida;
                      ts_tsoAllocator := Some tsa |};
     idAllocator := Some ida;
     tsoAllocator := Some tsa;
     segAssigner :=
       Some {| sia_ctx := ctx1; sia_masterAddr := MasterAddress (env w) |};
     manipulationMsgStream :=
       Some {| ms_ctx := ctx1; ms_bufSize := 1000;
               ms_client := Some (PulsarAddress (env w));
               ms_producers := ["manipulation"] |};
     queryMsgStream :=
       Some {| ms_ctx := ctx1; ms_bufSize := 1000;
               ms_client := Some (PulsarAddress (env w));
               ms_producers := ["query"] |};
     startCallbacks := []; closeCallbacks := [] |}.

Definition stream_events (ctx : Ctx) (w : World) : list Event :=
  [ ERandSeed;
    ENewPulsarMsgStream manipulationMsgStream_ (created_ctx ctx w) 1000;
    ESetPulsarClient manipulationMsgStream_ (PulsarAddress (env w));
    ECreatePulsarProducers manipulationMsgStream_ ["manipulation"];
    ENewPulsarMsgStream queryMsgStream_ (created_ctx ctx w) 1000;
    ESetPulsarClient queryMsgStream_ (PulsarAddress (env w));
    ECreatePulsarProducers queryMsgStream_ ["query"] ].

Definition create_events (ctx : Ctx) (w : World) : list Event :=
  stream_events ctx w ++
  [ ENewIDAllocator (created_ctx ctx w) (MasterAddress (env w));
    ENewTimestampAllocator (created_ctx ctx w) (MasterAddress (env w));
    ENewSegIDAssigner (created_ctx ctx w) (MasterAddress (env w));
    ENewTaskScheduler (created_ctx ctx w) ].

(** Order of steps.  A numbering gives each call the step it belongs to;
    calls without a number (logging, bookkeeping) belong to no step.  A
    trace is in order when the steps it goes through never decrease. *)
Fixpoint ordered_from (lo : nat) (l : list nat) : bool :=
  match l with
  | [] => true
  | x :: l' => (lo <=? x)%nat && ordered_from x l'
  end.

Definition in_order (step : Event -> option nat) (es : list Event) : bool :=
  ordered_from 0 (omap step es).

(** The callbacks called in a trace, in the order of the calls. *)
Definition callbacks_of (es : list Event) : list Callback :=
  omap (fun e => match e with ECallback cb => Some cb | _ => None end) es.

(** Environments in which a chosen call fails. *)
Definition env_with (dial listen serve : option Error)
  (ida tsa sia ts : option Error) (clean : Component -> bool) : Env :=
  {| PulsarAddress := "pulsar://localhost:6650";
     MasterAddress := "localhost:53100";
     NewIDAllocator_err := ida; NewTimestampAllocator_err := tsa;
     NewSegIDAssigner_err := sia; NewTaskScheduler_err := ts;
     DialContext_err := fun _ => dial;
     Listen_err := fun _ _ => listen;
     Serve_err := serve;
     Close_clean := clean |}.

Definition env_unreachable : Env :=
  env_with (Some "context deadline exceeded") None None None None None None
    (fun _ => true).

Definition env_port_taken : Env :=
  env_with None (Some "listen tcp :5053: bind: address already in use") None
    None None None None (fun _ => true).


(** Create a proxy and register two start callbacks and one close callback. *)
Definition setup : Go (option loc) :=
  '(p, _) ← CreateProxy Background;
  match p with
  | Some l =>
      AddStartCallback l [7%nat; 8%nat] ;;
      AddCloseCallback l [9%nat] ;;
      mret (Some l)
  | None => mret None
  end.

Definition example_world (e : Env) : World := final (setup (world0 e)).

Definition example_proxy (e : Env) : Proxy :=
  set_closeCallbacks [9%nat]
    (set_startCallbacks [7%nat; 8%nat] (created_proxy Background (world0 e))).

(** The example proxy once started, and once its endpoint routine has
    reached [Serve]. *)
Definition started_world (e : Env) : World :=
  final (Start 1%nat (example_world e)).

Definition serving_example (e : Env) : World :=
  serving_world 1%nat (started_proxy (example_world e) (example_proxy e))
    (started_world e).

(** The steps of startup, numbered as the specification orders them. *)
Definition startup_step (e : Event) : option nat :=
  match e with
  | EDialContext _ _ _ | ENewMasterClient _ => Some 1%nat
  | EInitGlobalMetaCache _ _ => Some 2%nat
  | EStart manipulationMsgStream_ | EStart queryMsgStream_ => Some 3%nat
  | EStart sched_ => Some 4%nat
  | EStart idAllocator_ | EStart tsoAllocator_ | EStart segAssigner_ =>
      Some 5%nat
  | EGo (grpcLoop_ _) | EListen _ _ | ENewServer
  | ERegisterMilvusServiceServer | EServe _ => Some 6%nat
  | _ => None
  end.

(** The steps of shutdown as the specification orders them: stop accepting
    requests, cancel the context, wait, close the allocators, close the
    scheduler, close the message streams, run the close callbacks. *)
Definition specified_shutdown_step (e : Event) : option nat :=
  match e with
  | EGracefulStop => Some 1%nat
  | ECancel _ => Some 2%nat
  | EWgWait => Some 3%nat
  | EClose tsoAllocator_ _ | EClose idAllocator_ _ | EClose segAssigner_ _ =>
      Some 4%nat
  | EClose sched_ _ => Some 5%nat
  | EClose manipulationMsgStream_ _ | EClose queryMsgStream_ _ => Some 6%nat
  | ECallback _ => Some 7%nat
  | _ => None
  end.

(** The steps of shutdown as [Close] takes them. *)
Definition shutdown_step (e : Event) : option nat :=
  match e with
  | ECancel _ => Some 1%nat
  | EGracefulStop => Some 2%nat
  | EClose tsoAllocator_ _ | EClose idAllocator_ _ | EClose segAssigner_ _ =>
      Some 3%nat
  | EClose sched_ _ => Some 4%nat
  | EClose manipulationMsgStream_ _ | EClose queryMsgStream_ _ => Some 5%nat
  | EWgWait => Some 6%nat
  | ECallback _ => Some 7%nat
  | ELog _ => Some 8%nat
  | _ => None
  end.

(** Close callbacks as the specification places them: before the components
    are torn down. *)
Definition specified_close_callback_step (e : Event) : option nat :=
  match e with
  | ECallback _ => Some 1%nat
  | EClose _ _ => Some 2%nat
  | _ => None
  end.

(** Start callbacks run after the connection, the cache and every component
    start, and before the endpoint routine is launched. *)
Definition start_callback_step (e : Event) : option nat :=
  match e with
  | EDialContext _ _ _ | ENewMasterClient _ | EInitGlobalMetaCache _ _
  | EStart _ => Some 1%nat
  | ECallback _ => Some 2%nat
  | EWgAdd _ | EGo _ => Some 3%nat
  | _ => None
  end.

(** Close callbacks run after the cancellation, the server stop, every
    component close and the wait, and before the final log line. *)
Definition close_callback_step (e : Event) : option nat :=
  match e with
  | ECancel _ | EGracefulStop | EClose _ _ | EWgWait => Some 1%nat
  | ECallback _ => Some 2%nat
  | ELog _ => Some 3%nat
  | _ => None
  end.

(** Environments in which a chosen constructor fails. *)
Definition env_ctor_fails (ida tsa sia ts : option Error) : Env :=
  env_with None None None ida tsa sia ts (fun _ => true).



(** Every component of [v] was constructed from the context [c]. *)
Definition built_from (c : Ctx) (v : Proxy) : Prop :=
  ms_ctx <$> manipulationMsgStream v = Some c /\
  ms_ctx <$> queryMsgStream v = Some c /\
  ida_ctx <$> idAllocator v = Some c /\
  tsa_ctx <$> tsoAllocator v = Some c /\
  sia_ctx <$> segAssigner v = Some c /\
  ts_ctx <$> sched v = Some c.

(** [v] has the context, the cancel function and the components of [v0]. *)
Definition same_components (v0 v : Proxy) : Prop :=
  proxyLoopCtx v = proxyLoopCtx v0 /\
  proxyLoopCancel v = proxyLoopCancel v0 /\
  manipulationMsgStream v = manipulationMsgStream v0 /\
  queryMsgStream v = queryMsgStream v0 /\
  idAllocator v = idAllocator v0 /\
  tsoAllocator v = tsoAllocator v0 /\
  segAssigner v = segAssigner v0 /\
  sched v = sched v0.

(** The deadline a call is given.  Of the calls of this file only the dial
    takes a context with a timeout; [GracefulStop] and [WaitGroup.Wait] take
    no argument at all. *)
Definition deadline (e : Event) : option Duration :=
  match e with
  | EDialContext ctx _ _ => ctx_timeout ctx
  | _ => None
  end.

(** Shutdown grants a bounded grace period when one of its calls waits under
    a deadline. *)
Definition bounded_grace_period (es : list Event) : Prop :=
  exists e d, e ∈ es /\ deadline e = Some d.

(** Calls that construct or configure a component. *)
Definition construction_call (e : Event) : bool :=
  match e with
  | ERandSeed | ENewPulsarMsgStream _ _ _ | ESetPulsarClient _ _
  | ECreatePulsarProducers _ _ | ENewIDAllocator _ _
  | ENewTimestampAllocator _ _ | ENewSegIDAssigner _ _
  | ENewTaskScheduler _ => true
  | _ => false
  end.

(** [m] issues only calls that satisfy [P], and leaves the cancelled
    contexts, the goroutines and the environment as they are, however it
    ends. *)
Definition quiet {A} (P : Event -> bool) (m : Go A) : Prop :=
  forall w,
    Forall (fun e => P e = true) (events (m w)) /\
    cancelled (final (m w)) = cancelled w /\
    spawned (final (m w)) = spawned w /\
    env (final (m w)) = env w.

(** [op] leaves the proxy at [p] sound: it is still there with every
    component, with the context, the cancel function and the components it
    had in [v], and no other cell of the heap has changed. *)
Definition keeps_proxy_sound {A} (op : Go A) (w : World) (p : loc)
  (v : Proxy) : Prop :=
  (exists v',
     heap (final (op w)) !! p = Some v' /\
     wf_proxy v' /\ same_components v v') /\
  forall q, q <> p -> heap (final (op w)) !! q = heap w !! q.

(** * Reasoning about runs *)

Lemma runs_outcome {A} (m : Go A) w o es w' :
  runs m w o es w' -> outcome (m w) = o.
Proof. unfold runs. intros ->. reflexivity. Qed.

Lemma runs_events {A} (m : Go A) w o es w' :
  runs m w o es w' -> events (m w) = es.
Proof. unfold runs. intros ->. reflexivity. Qed.

Lemma runs_final {A} (m : Go A) w o es w' :
  runs m w o es w' -> final (m w) = w'.
Proof. unfold runs. intros ->. reflexivity. Qed.

Lemma runs_ret {A} (a : A) w : runs (mret a) w (Returns a) [] w.
Proof. reflexivity. Qed.

Lemma runs_bind {A B} (m : Go A) (f : A -> Go B) w a es1 w1 o es2 w2
  (es : list Event) :
  runs m w (Returns a) es1 w1 ->
  runs (f a) w1 o es2 w2 ->
  es = (es1 ++ es2)%list ->
  runs (m ≫= f) w o es w2.
Proof.
  unfold runs, mbind, Go_bind. intros -> H ->. cbn. rewrite H. reflexivity.
Qed.

Lemma runs_bind_panics {A B} (m : Go A) (f : A -> Go B) w e es w1 :
  runs m w (Panics e) es w1 -> runs (m ≫= f) w (Panics e) es w1.
Proof. unfold runs, mbind, Go_bind. intros ->. reflexivity. Qed.

Lemma runs_bind_exits {A B} (m : Go A) (f : A -> Go B) w c es w1 :
  runs m w (Exits c) es w1 -> runs (m ≫= f) w (Exits c) es w1.
Proof. unfold runs, mbind, Go_bind. intros ->. reflexivity. Qed.

Lemma runs_emit e w : runs (emit e) w (Returns tt) [e] w.
Proof. reflexivity. Qed.

Lemma runs_panic {A} e w : runs (@panic A e) w (Panics e) [] w.
Proof. reflexivity. Qed.

Lemma runs_gets {A} (f : World -> A) w : runs (gets f) w (Returns (f w)) [] w.
Proof. reflexivity. Qed.

Lemma runs_modify_world f w : runs (modify_world f) w (Returns tt) [] (f w).
Proof. reflexivity. Qed.

Lemma runs_load p w v :
  heap w !! p = Some v -> runs (load p) w (Returns v) [] w.
Proof. intros H. unfold runs, load. rewrite H. reflexivity. Qed.

Lemma runs_load_nil p w :
  heap w !! p = None -> runs (load p) w (Panics nil_dereference) [] w.
Proof. intros H. unfold runs, load. rewrite H. reflexivity. Qed.

Lemma runs_store p v w :
  runs (store p v) w (Returns tt) []
    (with_heap (<[p := v]> (heap w)) (next_loc w) w).
Proof. reflexivity. Qed.

Lemma runs_alloc v w :
  runs (alloc v) w (Returns (next_loc w)) []
    (with_heap (<[next_loc w := v]> (heap w)) (S (next_loc w)) w).
Proof. reflexivity. Qed.

Lemma runs_log_Fatalf {A} msg w :
  runs (@log_Fatalf A msg) w (Exits 1) [EFatal msg] w.
Proof. reflexivity. Qed.

(** A deferred call runs after a body that returns. *)
Lemma runs_defer {A} (d : Go unit) (body : Go A) w a es1 w1 es2 w2
  (es : list Event) :
  runs body w (Returns a) es1 w1 ->
  runs d w1 (Returns tt) es2 w2 ->
  es = (es1 ++ es2)%list ->
  runs (defer_ d body) w (Returns a) es w2.
Proof.
  unfold runs, defer_. intros -> H ->. cbn. rewrite H. reflexivity.
Qed.

(** It does not run when the process exits in the body. *)
Lemma runs_defer_exits {A} (d : Go unit) (body : Go A) w c es w1 :
  runs body w (Exits c) es w1 -> runs (defer_ d body) w (Exits c) es w1.
Proof. unfold runs, defer_. intros ->. reflexivity. Qed.

(** The final world may be given in any convertible or equal form. *)
Lemma runs_weaken {A} (m : Go A) w o es w1 w2 :
  runs m w o es w1 -> w1 = w2 -> runs m w o es w2.
Proof. intros H <-. exact H. Qed.

Lemma lookup_stored (h : gmap loc Proxy) (n : loc) (w : World) (p : loc)
  (v : Proxy) :
  heap (with_heap (<[p := v]> h) n w) !! p = Some v.
Proof. cbn. apply lookup_insert_eq. Qed.

Create HintDb runs.
#[export] Hint Resolve runs_ret runs_emit runs_panic runs_gets
  runs_modify_world runs_load runs_store runs_alloc runs_log_Fatalf
  lookup_stored : runs.

(** Reduce the projections of an updated world. *)
Ltac world_simpl :=
  cbn [env heap next_loc next_ctx cancelled spawned
       with_heap with_next_ctx with_cancelled with_spawned].

(** Walk down a chain of binds, solving each step from the hints. *)
Ltac go_run :=
  lazymatch goal with
  | |- runs (_ ≫= _) _ _ _ _ =>
      eapply runs_bind;
      [ solve [eauto with runs] | cbn beta iota; go_run | try reflexivity ]
  | _ => try solve [eauto with runs]
  end.

(** ** The external calls, one by one *)

Lemma runs_call_cancel c w :
  runs (call_cancel c) w (Returns tt) [ECancel c]
    (with_cancelled (c :: cancelled w) w).
Proof. unfold call_cancel. go_run. Qed.

Lemma runs_context_WithCancel parent w :
  runs (context_WithCancel parent) w
    (Returns (WithCancel (next_ctx w) parent, next_ctx w)) []
    (with_next_ctx (S (next_ctx w)) w).
Proof. unfold context_WithCancel. go_run. Qed.

Lemma runs_context_WithTimeout parent d w :
  runs (context_WithTimeout parent d) w
    (Returns (WithTimeout (next_ctx w) d parent, next_ctx w)) []
    (with_next_ctx (S (next_ctx w)) w).
Proof. unfold context_WithTimeout. go_run. Qed.

Lemma runs_call_Start p c w v :
  heap w !! p = Some v -> is_nil c v = false ->
  runs (call_Start p c) w (Returns tt) [EStart c] w.
Proof. intros H Hn. unfold call_Start. go_run. rewrite Hn. go_run. Qed.

Lemma runs_call_Close p c w v :
  heap w !! p = Some v -> is_nil c v = false ->
  runs (call_Close p c) w (Returns tt) [EClose c (Close_clean (env w) c)] w.
Proof. intros H Hn. unfold call_Close. go_run. rewrite Hn. go_run. Qed.

Lemma runs_wg_Add p w v delta :
  heap w !! p = Some v -> 0 <= proxyLoopWg v + delta ->
  runs (wg_Add p delta) w (Returns tt) [EWgAdd delta]
    (with_heap (<[p := set_proxyLoopWg (proxyLoopWg v + delta) v]> (heap w))
       (next_loc w) w).
Proof.
  intros H Hd. unfold wg_Add. go_run.
  destruct (Z.ltb_spec (proxyLoopWg v + delta) 0); [lia | go_run].
Qed.

Lemma runs_wg_Done p w v :
  heap w !! p = Some v -> 0 <= proxyLoopWg v - 1 ->
  runs (wg_Done p) w (Returns tt) [EWgDone]
    (with_heap (<[p := set_proxyLoopWg (proxyLoopWg v - 1) v]> (heap w))
       (next_loc w) w).
Proof.
  intros H Hd. unfold wg_Done. go_run.
  destruct (Z.ltb_spec (proxyLoopWg v - 1) 0); [lia | go_run].
Qed.

Lemma runs_wg_Wait p w v :
  heap w !! p = Some v -> runs (wg_Wait p) w (Returns tt) [EWgWait] w.
Proof. intros H. unfold wg_Wait. go_run. Qed.

Lemma runs_GracefulStop s w :
  runs (GracefulStop s) w (Returns tt) [EGracefulStop] w.
Proof. apply runs_emit. Qed.

Lemma runs_for_range_callbacks (cbs : list Callback) w :
  runs (for_range cbs call_Callback) w (Returns tt) (map ECallback cbs) w.
Proof.
  induction cbs as [|cb cbs IH]; cbn [for_range map].
  - apply runs_ret.
  - eapply runs_bind; [apply runs_emit | apply IH | reflexivity].
Qed.

Lemma runs_go r w :
  runs (go r) w (Returns tt) [EGo r] (with_spawned (spawned w ++ [r]) w).
Proof. unfold go. go_run. Qed.

Lemma runs_net_Listen_fails network address w e :
  Listen_err (env w) network address = Some e ->
  runs (net_Listen network address) w (Returns (None, Some e))
    [EListen network address] w.
Proof. intros H. unfold net_Listen. go_run. rewrite H. go_run. Qed.

Lemma runs_net_Listen network address w :
  Listen_err (env w) network address = None ->
  runs (net_Listen network address) w
    (Returns (Some {| lis_network := network; lis_address := address |}, None))
    [EListen network address] w.
Proof. intros H. unfold net_Listen. go_run. rewrite H. go_run. Qed.

Lemma runs_grpc_DialContext_fails ctx target opts w e :
  DialContext_err (env w) target = Some e ->
  runs (grpc_DialContext ctx target opts) w (Returns (None, Some e))
    [EDialContext ctx target opts] w.
Proof. intros H. unfold grpc_DialContext. go_run. rewrite H. go_run. Qed.

Lemma runs_grpc_DialContext ctx target opts w :
  DialContext_err (env w) target = None ->
  runs (grpc_DialContext ctx target opts) w
    (Returns (Some {| conn_ctx := ctx; conn_target := target |}, None))
    [EDialContext ctx target opts] w.
Proof. intros H. unfold grpc_DialContext. go_run. rewrite H. go_run. Qed.

Lemma runs_NewMasterClient c w :
  runs (masterpb_NewMasterClient (Some c)) w
    (Returns (Some {| mc_conn := c |})) [ENewMasterClient c] w.
Proof. unfold masterpb_NewMasterClient. go_run. Qed.

Lemma runs_assign p f w v :
  heap w !! p = Some v ->
  runs (assign p f) w (Returns tt) []
    (with_heap (<[p := f v]> (heap w)) (next_loc w) w).
Proof. intros H. unfold assign. go_run. Qed.

Lemma runs_initGlobalMetaCache ctx client ida tsa w :
  runs (initGlobalMetaCache ctx client ida tsa) w (Returns tt)
    [EInitGlobalMetaCache ctx client] w.
Proof. apply runs_emit. Qed.

#[export] Hint Resolve runs_call_cancel runs_context_WithCancel
  runs_context_WithTimeout runs_call_Start runs_call_Close runs_wg_Wait
  runs_GracefulStop runs_for_range_callbacks runs_go runs_NewMasterClient
  runs_assign runs_initGlobalMetaCache : runs.

(** ** connectMaster *)

Lemma connectMaster_fails p w e :
  DialContext_err (env w) (MasterAddress (env w)) = Some e ->
  runs (connectMaster p) w (Returns (Some e)) (connect_failed_events w e)
    (after_dial w).
Proof.
  intros Hd. unfold connectMaster. go_run.
  eapply runs_defer.
  - eapply runs_bind;
      [ apply runs_grpc_DialContext_fails; world_simpl; exact Hd
      | cbn beta iota; go_run | reflexivity ].
  - apply runs_call_cancel.
  - reflexivity.
Qed.

Lemma connectMaster_ok p w v :
  DialContext_err (env w) (MasterAddress (env w)) = None ->
  heap w !! p = Some v ->
  runs (connectMaster p) w (Returns None) (connect_events w)
    (after_connect p v w).
Proof.
  intros Hd Hp. unfold connectMaster. go_run.
  eapply runs_defer.
  - eapply runs_bind;
      [ apply runs_grpc_DialContext; world_simpl; exact Hd
      | cbn beta iota; go_run | reflexivity ].
  - apply runs_call_cancel.
  - reflexivity.
Qed.

(** ** startProxy *)

Lemma is_nil_connected c w v : is_nil c (connected_proxy w v) = is_nil c v.
Proof. destruct c; reflexivity. Qed.

Lemma lookup_after_connect p v w :
  heap (after_connect p v w) !! p = Some (connected_proxy w v).
Proof. apply lookup_stored. Qed.

Lemma startProxy_fails p w e :
  DialContext_err (env w) (MasterAddress (env w)) = Some e ->
  runs (startProxy p) w (Returns (Some e)) (connect_failed_events w e)
    (after_dial w).
Proof.
  intros Hd. unfold startProxy.
  eapply runs_bind; [ apply connectMaster_fails; exact Hd | cbn beta iota | ].
  - apply runs_ret.
  - symmetry. apply app_nil_r.
Qed.

Lemma startProxy_ok p w v :
  DialContext_err (env w) (MasterAddress (env w)) = None ->
  heap w !! p = Some v ->
  wf_proxy v ->
  runs (startProxy p) w (Returns None) (start_events p v w) (after_start p v w).
Proof.
  intros Hd Hp [Hn Hwg]. unfold startProxy, start_events.
  pose proof (lookup_after_connect p v w) as Hc.
  assert (Hn' : forall c, is_nil c (connected_proxy w v) = false)
    by (intros c; rewrite is_nil_connected; apply Hn).
  eapply runs_bind;
    [ apply connectMaster_ok; eassumption | cbn beta iota | reflexivity ].
  eapply runs_bind; [ apply runs_load; exact Hc | cbn beta iota | reflexivity ].
  eapply runs_bind;
    [ apply runs_initGlobalMetaCache | cbn beta iota | reflexivity ].
  do 6 (eapply runs_bind;
    [ eapply runs_call_Start; [ exact Hc | apply Hn' ]
    | cbn beta iota | reflexivity ]).
  eapply runs_bind; [ apply runs_load; exact Hc | cbn beta iota | reflexivity ].
  eapply runs_bind;
    [ apply runs_for_range_callbacks | cbn beta iota | reflexivity ].
  eapply runs_bind;
    [ eapply runs_wg_Add; [ exact Hc | cbn; lia ] | cbn beta iota | reflexivity ].
  eapply runs_bind; [ apply runs_go | cbn beta iota | reflexivity ].
  apply runs_ret.
Qed.

(** ** grpcLoop *)

Lemma runs_grpc_NewServer w :
  runs grpc_NewServer w (Returns NewServer_) [ENewServer] w.
Proof. unfold grpc_NewServer. go_run. Qed.

Lemma runs_Serve s l w :
  runs (Serve (Some s) (Some l)) w (Returns (Serve_err (env w))) [EServe l] w.
Proof. unfold Serve. go_run. Qed.

Lemma grpcLoop_listen_fails p w e :
  Listen_err (env w) "tcp" ":5053" = Some e ->
  runs (grpcLoop p) w (Exits 1)
    [ EListen "tcp" ":5053";
      EFatal ("Proxy grpc server fatal error=" +:+ e) ] w.
Proof.
  intros Hl. unfold grpcLoop. apply runs_defer_exits.
  eapply runs_bind;
    [ apply runs_net_Listen_fails; exact Hl | cbn beta iota | reflexivity ].
  apply runs_bind_exits. apply runs_log_Fatalf.
Qed.

(** The body of [grpcLoop] up to the return of [Serve]. *)
Lemma grpcLoop_serves p w v :
  Listen_err (env w) "tcp" ":5053" = None ->
  heap w !! p = Some v ->
  forall (k : option Error -> Go unit) o es w',
  runs (k (Serve_err (env w))) (serving_world p v w) o es w' ->
  runs ('(lis, err) ← net_Listen "tcp" ":5053";
        match err with
        | Some e => log_Fatalf ("Proxy grpc server fatal error=" +:+ e)
        | None => mret tt
        end ;;
        s ← grpc_NewServer;
        assign p (set_grpcServer (Some s)) ;;
        v ← load p;
        servicepb_RegisterMilvusServiceServer (grpcServer v) p ;;
        v ← load p;
        err ← Serve (grpcServer v) lis;
        k err) w o
    ([ EListen "tcp" ":5053"; ENewServer; ERegisterMilvusServiceServer;
       EServe endpoint ] ++ es) w'.
Proof.
  intros Hl Hp k o es w' Hk.
  eapply runs_bind;
    [ apply runs_net_Listen; exact Hl | cbn beta iota | reflexivity ].
  eapply runs_bind; [ apply runs_ret | cbn beta iota | reflexivity ].
  eapply runs_bind; [ apply runs_grpc_NewServer | cbn beta iota | reflexivity ].
  eapply runs_bind;
    [ apply runs_assign; exact Hp | cbn beta iota | reflexivity ].
  eapply runs_bind;
    [ apply runs_load; apply lookup_stored | cbn beta iota | reflexivity ].
  eapply runs_bind; [ apply runs_emit | cbn beta iota | reflexivity ].
  eapply runs_bind;
    [ apply runs_load; apply lookup_stored | cbn beta iota | reflexivity ].
  eapply runs_bind; [ apply runs_Serve | cbn beta iota | reflexivity ].
  exact Hk.
Qed.

Lemma grpcLoop_serve_fails p w v e :
  Listen_err (env w) "tcp" ":5053" = None ->
  heap w !! p = Some v ->
  Serve_err (env w) = Some e ->
  runs (grpcLoop p) w (Exits 1)
    [ EListen "tcp" ":5053"; ENewServer; ERegisterMilvusServiceServer;
      EServe endpoint; EFatal ("Proxy grpc server fatal error=" +:+ e) ]
    (serving_world p v w).
Proof.
  intros Hl Hp Hs. unfold grpcLoop. apply runs_defer_exits.
  apply (grpcLoop_serves p w v Hl Hp
           (fun err => match err with
                       | Some e => log_Fatalf ("Proxy grpc server fatal error=" +:+ e)
                       | None => mret tt
                       end)).
  rewrite Hs. apply runs_log_Fatalf.
Qed.

Lemma grpcLoop_ok p w v :
  Listen_err (env w) "tcp" ":5053" = None ->
  heap w !! p = Some v ->
  Serve_err (env w) = None ->
  0 < proxyLoopWg v ->
  runs (grpcLoop p) w (Returns tt)
    [ EListen "tcp" ":5053"; ENewServer; ERegisterMilvusServiceServer;
      EServe endpoint; EWgDone ]
    (with_heap
       (<[p := set_proxyLoopWg (proxyLoopWg v - 1)
                 (set_grpcServer (Some NewServer_) v)]>
          (heap (serving_world p v w)))
       (next_loc w) (serving_world p v w)).
Proof.
  intros Hl Hp Hs Hwg. unfold grpcLoop.
  eapply runs_defer.
  - apply (grpcLoop_serves p w v Hl Hp
           (fun err => match err with
                       | Some e => log_Fatalf ("Proxy grpc server fatal error=" +:+ e)
                       | None => mret tt
                       end)).
    rewrite Hs. apply runs_ret.
  - eapply runs_weaken;
      [ eapply runs_wg_Done; [ apply lookup_stored | cbn; lia ] | reflexivity ].
  - reflexivity.
Qed.

(** ** stopProxyLoop and Close *)

Lemma stopProxyLoop_runs p w v :
  heap w !! p = Some v ->
  wf_proxy v ->
  runs (stopProxyLoop p) w (Returns tt) (stopProxyLoop_events v w)
    (after_close v w).
Proof.
  intros Hp [Hn _]. unfold stopProxyLoop, stopProxyLoop_events.
  eapply runs_bind; [ apply runs_load; exact Hp | cbn beta iota | reflexivity ].
  eapply runs_bind; [ apply runs_call_cancel | cbn beta iota | reflexivity ].
  eapply runs_bind; [ apply runs_load; exact Hp | cbn beta iota | reflexivity ].
  eapply runs_bind with (es1 := stop_events v);
    [ unfold stop_events; destruct (grpcServer v);
      [ apply runs_GracefulStop | apply runs_ret ]
    | cbn beta iota | reflexivity ].
  do 6 (eapply runs_bind;
    [ eapply runs_call_Close; [ exact Hp | apply Hn ]
    | cbn beta iota | reflexivity ]).
  eapply runs_wg_Wait. exact Hp.
Qed.

Lemma Close_runs p w v :
  heap w !! p = Some v ->
  wf_proxy v ->
  runs (Close p) w (Returns tt) (close_events v w) (after_close v w).
Proof.
  intros Hp Hwf. unfold Close, close_events.
  eapply runs_bind;
    [ apply stopProxyLoop_runs; eassumption | cbn beta iota | reflexivity ].
  eapply runs_bind; [ apply runs_load; exact Hp | cbn beta iota | reflexivity ].
  eapply runs_bind;
    [ apply runs_for_range_callbacks | cbn beta iota | reflexivity ].
  apply runs_emit.
Qed.

(** ** AddStartCallback, AddCloseCallback *)

Lemma AddStartCallback_runs p w v cbs :
  heap w !! p = Some v ->
  runs (AddStartCallback p cbs) w (Returns tt) []
    (with_heap
       (<[p := set_startCallbacks (startCallbacks v ++ cbs) v]> (heap w))
       (next_loc w) w).
Proof. intros Hp. unfold AddStartCallback. go_run. Qed.

Lemma AddCloseCallback_runs p w v cbs :
  heap w !! p = Some v ->
  runs (AddCloseCallback p cbs) w (Returns tt) []
    (with_heap
       (<[p := set_closeCallbacks (closeCallbacks v ++ cbs) v]> (heap w))
       (next_loc w) w).
Proof. intros Hp. unfold AddCloseCallback. go_run. Qed.

(** ** CreateProxy *)

Lemma runs_NewPulsarMsgStream c ctx bufSize w :
  runs (msgstream_NewPulsarMsgStream c ctx bufSize) w
    (Returns {| ms_ctx := ctx; ms_bufSize := bufSize; ms_client := None;
                ms_producers := [] |})
    [ENewPulsarMsgStream c ctx bufSize] w.
Proof. unfold msgstream_NewPulsarMsgStream. go_run. Qed.

Lemma runs_SetPulsarClient c get set p address w v s :
  heap w !! p = Some v -> get v = Some s ->
  runs (SetPulsarClient c get set p address) w (Returns tt)
    [ESetPulsarClient c address]
    (with_heap
       (<[p := set (Some {| ms_ctx := ms_ctx s; ms_bufSize := ms_bufSize s;
                            ms_client := Some address;
                            ms_producers := ms_producers s |}) v]> (heap w))
       (next_loc w) w).
Proof.
  intros Hp Hg. unfold SetPulsarClient. go_run. rewrite Hg. go_run.
Qed.

Lemma runs_CreatePulsarProducers c get set p channels w v s :
  heap w !! p = Some v -> get v = Some s ->
  runs (CreatePulsarProducers c get set p channels) w (Returns tt)
    [ECreatePulsarProducers c channels]
    (with_heap
       (<[p := set (Some {| ms_ctx := ms_ctx s; ms_bufSize := ms_bufSize s;
                            ms_client := ms_client s;
                            ms_producers := ms_producers s ++ channels |}) v]>
          (heap w))
       (next_loc w) w).
Proof.
  intros Hp Hg. unfold CreatePulsarProducers. go_run. rewrite Hg. go_run.
Qed.

Lemma runs_NewIDAllocator ctx a w :
  runs (allocator_NewIDAllocator ctx a) w
    (Returns match NewIDAllocator_err (env w) with
             | Some e => (None, Some e)
             | None => (Some {| ida_ctx := ctx; ida_masterAddr := a |}, None)
             end)
    [ENewIDAllocator ctx a] w.
Proof.
  unfold allocator_NewIDAllocator. go_run.
  destruct (NewIDAllocator_err (env w)); apply runs_ret.
Qed.

Lemma runs_NewTimestampAllocator ctx a w :
  runs (allocator_NewTimestampAllocator ctx a) w
    (Returns match NewTimestampAllocator_err (env w) with
             | Some e => (None, Some e)
             | None => (Some {| tsa_ctx := ctx; tsa_masterAddr := a |}, None)
             end)
    [ENewTimestampAllocator ctx a] w.
Proof.
  unfold allocator_NewTimestampAllocator. go_run.
  destruct (NewTimestampAllocator_err (env w)); apply runs_ret.
Qed.

Lemma runs_NewSegIDAssigner ctx a w :
  runs (allocator_NewSegIDAssigner ctx a) w
    (Returns match NewSegIDAssigner_err (env w) with
             | Some e => (None, Some e)
             | None => (Some {| sia_ctx := ctx; sia_masterAddr := a |}, None)
             end)
    [ENewSegIDAssigner ctx a] w.
Proof.
  unfold allocator_NewSegIDAssigner. go_run.
  destruct (NewSegIDAssigner_err (env w)); apply runs_ret.
Qed.

Lemma runs_NewTaskScheduler ctx ida tsa w :
  runs (NewTaskScheduler ctx ida tsa) w
    (Returns match NewTaskScheduler_err (env w) with
             | Some e => (None, Some e)
             | None => (Some {| ts_ctx := ctx; ts_idAllocator := ida;
                                ts_tsoAllocator := tsa |}, None)
             end)
    [ENewTaskScheduler ctx] w.
Proof.
  unfold NewTaskScheduler. go_run.
  destruct (NewTaskScheduler_err (env w)); apply runs_ret.
Qed.

#[export] Hint Resolve runs_NewPulsarMsgStream runs_NewIDAllocator
  runs_NewTimestampAllocator runs_NewSegIDAssigner runs_NewTaskScheduler
  : runs.

(** Reduce field reads of records that are known. *)
Ltac state_simpl :=
  cbn [env heap next_loc next_ctx cancelled spawned
       with_heap with_next_ctx with_cancelled with_spawned
       proxyLoopCtx proxyLoopCancel proxyLoopWg grpcServer masterConn
       masterClient sched idAllocator tsoAllocator segAssigner
       manipulationMsgStream queryMsgStream startCallbacks closeCallbacks
       set_proxyLoopWg set_grpcServer set_masterConn set_masterClient
       set_sched set_idAllocator set_tsoAllocator set_segAssigner
       set_manipulationMsgStream set_queryMsgStream set_startCallbacks
       set_closeCallbacks ms_ctx ms_bufSize ms_client ms_producers app].

(** One statement of [CreateProxy]. *)
Ltac create_step :=
  eapply runs_bind;
  [ first
      [ solve [eauto with runs]
      | eapply runs_SetPulsarClient; [ apply lookup_stored | reflexivity ]
      | eapply runs_CreatePulsarProducers; [ apply lookup_stored | reflexivity ] ]
  | cbn beta iota; state_simpl | try reflexivity ].

(** From the first statement to the call of [NewIDAllocator]. *)
Ltac create_streams := unfold CreateProxy; do 17 create_step.

Lemma CreateProxy_ok ctx w :
  NewIDAllocator_err (env w) = None ->
  NewTimestampAllocator_err (env w) = None ->
  NewSegIDAssigner_err (env w) = None ->
  NewTaskScheduler_err (env w) = None ->
  exists w',
    runs (CreateProxy ctx) w (Returns (Some (next_loc w), None))
      (create_events ctx w) w' /\
    heap w' !! next_loc w = Some (created_proxy ctx w) /\
    env w' = env w /\ cancelled w' = cancelled w /\ spawned w' = spawned w.
Proof.
  intros H1 H2 H3 H4. eexists. split.
  - create_streams. rewrite H1. cbn beta iota.
    do 3 create_step. rewrite H2. cbn beta iota.
    do 3 create_step. rewrite H3. cbn beta iota.
    do 3 create_step. rewrite H4. cbn beta iota.
    create_step. apply runs_ret.
  - split; [ | repeat split ].
    refine (eq_trans (lookup_stored _ _ _ _ _) _). reflexivity.
Qed.

Lemma CreateProxy_id_fails ctx w e :
  NewIDAllocator_err (env w) = Some e ->
  exists w',
    runs (CreateProxy ctx) w (Returns (None, Some e))
      (stream_events ctx w ++
       [ ENewIDAllocator (created_ctx ctx w) (MasterAddress (env w)) ]) w'.
Proof.
  intros H1. eexists. create_streams. rewrite H1. apply runs_ret.
Qed.

Lemma CreateProxy_tso_fails ctx w e :
  NewIDAllocator_err (env w) = None ->
  NewTimestampAllocator_err (env w) = Some e ->
  exists w',
    runs (CreateProxy ctx) w (Returns (None, Some e))
      (stream_events ctx w ++
       [ ENewIDAllocator (created_ctx ctx w) (MasterAddress (env w));
         ENewTimestampAllocator (created_ctx ctx w) (MasterAddress (env w)) ])
      w'.
Proof.
  intros H1 H2. eexists. create_streams. rewrite H1. cbn beta iota.
  do 3 create_step. rewrite H2. apply runs_ret.
Qed.

Lemma CreateProxy_seg_fails ctx w e :
  NewIDAllocator_err (env w) = None ->
  NewTimestampAllocator_err (env w) = None ->
  NewSegIDAssigner_err (env w) = Some e ->
  exists w',
    runs (CreateProxy ctx) w (Panics e)
      (stream_events ctx w ++
       [ ENewIDAllocator (created_ctx ctx w) (MasterAddress (env w));
         ENewTimestampAllocator (created_ctx ctx w) (MasterAddress (env w));
         ENewSegIDAssigner (created_ctx ctx w) (MasterAddress (env w)) ])
      w'.
Proof.
  intros H1 H2 H3. eexists. create_streams. rewrite H1. cbn beta iota.
  do 3 create_step. rewrite H2. cbn beta iota.
  do 3 create_step. rewrite H3. apply runs_panic.
Qed.

Lemma CreateProxy_sched_fails ctx w e :
  NewIDAllocator_err (env w) = None ->
  NewTimestampAllocator_err (env w) = None ->
  NewSegIDAssigner_err (env w) = None ->
  NewTaskScheduler_err (env w) = Some e ->
  exists w',
    runs (CreateProxy ctx) w (Returns (None, Some e)) (create_events ctx w) w'.
Proof.
  intros H1 H2 H3 H4. eexists. create_streams. rewrite H1. cbn beta iota.
  do 3 create_step. rewrite H2. cbn beta iota.
  do 3 create_step. rewrite H3. cbn beta iota.
  do 3 create_step. rewrite H4. cbn beta iota.
  create_step. apply runs_ret.
Qed.

(** * Order of steps *)

Lemma ordered_from_app lo l1 l2 k :
  ordered_from lo l1 = true ->
  Forall (fun x => (x <= k)%nat) l1 -> (lo <= k)%nat ->
  ordered_from k l2 = true ->
  ordered_from lo (l1 ++ l2) = true.
Proof.
  revert lo. induction l1 as [|x l1 IH]; intros lo H1 Hk Hlo H2; cbn in *.
  - destruct l2 as [|y l2]; [reflexivity|]. cbn in *.
    apply andb_true_iff in H2 as [Hy H2]. apply Nat.leb_le in Hy.
    apply andb_true_iff. split; [apply Nat.leb_le; lia | exact H2].
  - apply andb_true_iff in H1 as [Hx H1]. inversion Hk; subst.
    apply andb_true_iff. split; [exact Hx|]. apply IH; auto.
Qed.

Lemma ordered_from_const lo k (n : nat) :
  (lo <= k)%nat -> ordered_from lo (replicate n k) = true.
Proof.
  revert lo. induction n as [|n IH]; intros lo H; cbn; [reflexivity|].
  apply andb_true_iff. split; [apply Nat.leb_le; exact H | apply IH; lia].
Qed.

Lemma omap_callbacks (step : Event -> option nat) k (cbs : list Callback) :
  (forall cb, step (ECallback cb) = Some k) ->
  omap step (map ECallback cbs) = replicate (length cbs) k.
Proof.
  intros H. induction cbs as [|cb cbs IH]; cbn; [reflexivity|].
  rewrite H. cbn. rewrite <- IH. reflexivity.
Qed.

Lemma omap_no_callbacks (step : Event -> option nat) (cbs : list Callback) :
  (forall cb, step (ECallback cb) = None) ->
  omap step (map ECallback cbs) = [].
Proof.
  intros H. induction cbs as [|cb cbs IH]; cbn; [reflexivity|].
  rewrite H. exact IH.
Qed.

Lemma callbacks_of_callbacks (cbs : list Callback) :
  callbacks_of (map ECallback cbs) = cbs.
Proof.
  induction cbs as [|cb cbs IH]; cbn; [reflexivity|].
  unfold callbacks_of in IH. rewrite IH. reflexivity.
Qed.

(** A trace in which the callbacks form one block, between [pre] and [post],
    is in order when [pre], the callbacks' step [k] and [post] are. *)
Lemma in_order_around_callbacks step k pre (cbs : list Callback) post :
  (forall cb, step (ECallback cb) = Some k) ->
  ordered_from 0 (omap step pre) = true ->
  Forall (fun x => (x <= k)%nat) (omap step pre) ->
  ordered_from k (omap step post) = true ->
  in_order step (pre ++ map ECallback cbs ++ post) = true.
Proof.
  intros Hk Hpre Hle Hpost. unfold in_order.
  rewrite !omap_app, (omap_callbacks step k cbs Hk).
  apply ordered_from_app with (k := k); [exact Hpre | exact Hle | lia |].
  apply ordered_from_app with (k := k).
  - apply ordered_from_const. lia.
  - apply Forall_replicate. lia.
  - lia.
  - exact Hpost.
Qed.

Lemma in_order_skip_callbacks step pre (cbs : list Callback) post :
  (forall cb, step (ECallback cb) = None) ->
  in_order step (pre ++ post) = true ->
  in_order step (pre ++ map ECallback cbs ++ post) = true.
Proof.
  intros Hk H. unfold in_order in *.
  rewrite !omap_app, (omap_no_callbacks step cbs Hk). cbn.
  rewrite <- omap_app. exact H.
Qed.

(** * Worked examples *)

Lemma example_lookup (e : Env) :
  NewIDAllocator_err e = None -> NewTimestampAllocator_err e = None ->
  NewSegIDAssigner_err e = None -> NewTaskScheduler_err e = None ->
  heap (example_world e) !! 1%nat = Some (example_proxy e).
Proof.
  intros H1 H2 H3 H4.
  destruct (CreateProxy_ok Background (world0 e) H1 H2 H3 H4)
    as (w' & Hr & Hh & _).
  unfold example_world, setup.
  pose proof (AddStartCallback_runs _ _ _ [7%nat; 8%nat] Hh) as Ha.
  erewrite runs_final; [ | eapply runs_bind; [ exact Hr | cbn beta iota | reflexivity ]].
  2: { eapply runs_bind; [ exact Ha | cbn beta iota | reflexivity ].
       eapply runs_bind;
         [ apply AddCloseCallback_runs; apply lookup_stored
         | cbn beta iota | reflexivity ].
       apply runs_ret. }
  apply lookup_stored.
Qed.

Lemma example_wf (e : Env) : wf_proxy (example_proxy e).
Proof. split; [ intros []; reflexivity | cbn; lia ]. Qed.

(** * Startup *)

Lemma lookup_after_start p v w :
  heap (after_start p v w) !! p = Some (started_proxy w v).
Proof. apply lookup_stored. Qed.

Lemma elem_of_callbacks (e : Event) (cbs : list Callback) :
  e ∈ map ECallback cbs -> exists cb, e = ECallback cb.
Proof.
  induction cbs as [|cb cbs IH]; cbn; intros H.
  - inversion H.
  - apply elem_of_cons in H as [->|H]; [eexists; reflexivity | auto].
Qed.

Lemma start_events_no_listen p v w network address :
  EListen network address ∉ start_events p v w.
Proof.
  intros Hin. unfold start_events in Hin.
  repeat (apply elem_of_app in Hin as [Hin|Hin]).
  - unfold connect_events in Hin.
    repeat (apply elem_of_cons in Hin as [Hin|Hin]; [discriminate|]).
    inversion Hin.
  - repeat (apply elem_of_cons in Hin as [Hin|Hin]; [discriminate|]).
    inversion Hin.
  - unfold component_start_events in Hin.
    repeat (apply elem_of_cons in Hin as [Hin|Hin]; [discriminate|]).
    inversion Hin.
  - apply elem_of_callbacks in Hin as [cb Hcb]. discriminate.
  - repeat (apply elem_of_cons in Hin as [Hin|Hin]; [discriminate|]).
    inversion Hin.
Qed.

(** Whatever the network answers, [grpcLoop] starts by listening on the
    fixed address. *)
Lemma grpcLoop_begins_listening p w v :
  heap w !! p = Some v -> 0 < proxyLoopWg v ->
  exists rest, events (grpcLoop p w) = EListen "tcp" ":5053" :: rest.
Proof.
  intros Hp Hwg.
  destruct (Listen_err (env w) "tcp" ":5053") as [e|] eqn:Hl.
  - eexists. apply (runs_events _ _ _ _ _ (grpcLoop_listen_fails p w e Hl)).
  - destruct (Serve_err (env w)) as [e|] eqn:Hs.
    + eexists.
      apply (runs_events _ _ _ _ _ (grpcLoop_serve_fails p w v e Hl Hp Hs)).
    + eexists.
      apply (runs_events _ _ _ _ _ (grpcLoop_ok p w v Hl Hp Hs Hwg)).
Qed.

Lemma Start_succeeds_dialled p w :
  outcome (Start p w) = Returns None ->
  DialContext_err (env w) (MasterAddress (env w)) = None.
Proof.
  intros Hout.
  destruct (DialContext_err (env w) (MasterAddress (env w))) as [e|] eqn:Hd;
    [ | reflexivity ].
  unfold Start in Hout.
  rewrite (runs_outcome _ _ _ _ _ (startProxy_fails p w e Hd)) in Hout.
  discriminate.
Qed.

(** C1.  A successful [Start] on a proxy made by [CreateProxy] issues its
    calls in this order: the connection to the master is dialled first, then
    the metadata cache is initialised with the client of that connection,
    then the two message streams are started, then the scheduler, then the
    identifier, timestamp and segment allocators; the start callbacks
    follow, and the routine that opens the gRPC endpoint is launched last.
    The steps never go back, no listening happens inside [Start], and the
    launched routine begins by listening on the endpoint. *)
Theorem Start_order (w : World) (p : loc) (v : Proxy) :
  heap w !! p = Some v ->
  wf_proxy v ->
  outcome (Start p w) = Returns None ->
  events (Start p w) =
    [ ELog ("Proxy connected to master, master_addr=" +:+ MasterAddress (env w));
      EDialContext (dial_ctx w) (MasterAddress (env w)) [WithInsecure; WithBlock];
      ELog ("Proxy connected to master, master_addr=" +:+ MasterAddress (env w));
      ENewMasterClient (dial_conn w);
      ECancel (next_ctx w);
      EInitGlobalMetaCache (proxyLoopCtx v) (Some {| mc_conn := dial_conn w |});
      EStart manipulationMsgStream_; EStart queryMsgStream_;
      EStart sched_;
      EStart idAllocator_; EStart tsoAllocator_; EStart segAssigner_ ]
    ++ map ECallback (startCallbacks v)
    ++ [ EWgAdd 1; EGo (grpcLoop_ p) ] /\
  in_order startup_step (events (Start p w)) = true /\
  (forall network address, EListen network address ∉ events (Start p w)) /\
  spawned (final (Start p w)) = spawned w ++ [grpcLoop_ p] /\
  exists rest,
    events (grpcLoop p (final (Start p w))) = EListen "tcp" ":5053" :: rest.
Proof.
  intros Hp Hwf Hout.
  pose proof (Start_succeeds_dialled p w Hout) as Hd.
  pose proof (startProxy_ok p w v Hd Hp Hwf) as Hr.
  unfold Start.
  rewrite (runs_events _ _ _ _ _ Hr), (runs_final _ _ _ _ _ Hr).
  split; [ reflexivity | ]. split; [ | split; [ | split ] ].
  - unfold start_events.
    change (connect_events w ++
            [EInitGlobalMetaCache (proxyLoopCtx v)
               (Some {| mc_conn := dial_conn w |})] ++
            component_start_events ++
            map ECallback (startCallbacks v) ++ [EWgAdd 1; EGo (grpcLoop_ p)])
      with ((connect_events w ++
             [EInitGlobalMetaCache (proxyLoopCtx v)
                (Some {| mc_conn := dial_conn w |})] ++
             component_start_events) ++
            map ECallback (startCallbacks v) ++ [EWgAdd 1; EGo (grpcLoop_ p)]).
    apply in_order_skip_callbacks; [ reflexivity | reflexivity ].
  - apply start_events_no_listen.
  - reflexivity.
  - apply (grpcLoop_begins_listening p _ (started_proxy w v)).
    + apply lookup_after_start.
    + destruct Hwf as [_ Hwg]. cbn. lia.
Qed.

Lemma Start_order_witness :
  events (Start 1%nat (example_world env0)) =
    [ ELog "Proxy connected to master, master_addr=localhost:53100";
      EDialContext (WithTimeout 1 (10 * Second) Background) "localhost:53100"
        [WithInsecure; WithBlock];
      ELog "Proxy connected to master, master_addr=localhost:53100";
      ENewMasterClient (dial_conn (example_world env0));
      ECancel 1;
      EInitGlobalMetaCache (WithCancel 0 Background)
        (Some {| mc_conn := dial_conn (example_world env0) |});
      EStart manipulationMsgStream_; EStart queryMsgStream_;
      EStart sched_;
      EStart idAllocator_; EStart tsoAllocator_; EStart segAssigner_;
      ECallback 7%nat; ECallback 8%nat;
      EWgAdd 1; EGo (grpcLoop_ 1%nat) ].
Proof.
  refine (proj1 (Start_order (example_world env0) 1%nat (example_proxy env0)
                   _ _ _)).
  - apply example_lookup; reflexivity.
  - apply example_wf.
  - vm_compute. reflexivity.
Defined.

(** * Shutdown *)

Lemma Forall_le_bound (k : nat) (l : list nat) :
  forallb (fun x => x <=? k)%nat l = true -> Forall (fun x => (x <= k)%nat) l.
Proof.
  induction l as [|x l IH]; cbn; intros H; constructor.
  - apply andb_true_iff in H as [H _]. apply Nat.leb_le. exact H.
  - apply IH. apply andb_true_iff in H as [_ H]. exact H.
Qed.

Lemma close_events_in_order (v : Proxy) (w : World) :
  in_order shutdown_step (close_events v w) = true.
Proof.
  unfold close_events, stopProxyLoop_events.
  rewrite !app_assoc. rewrite <- app_assoc.
  apply in_order_around_callbacks with (k := 7%nat).
  - reflexivity.
  - unfold stop_events. destruct (grpcServer v); reflexivity.
  - apply Forall_le_bound. unfold stop_events. destruct (grpcServer v); reflexivity.
  - reflexivity.
Qed.

(** C2, as the code has it.  [Close] first cancels the shared context, then
    stops the gRPC server gracefully when the endpoint routine has created
    it, then closes the timestamp, identifier and segment allocators, then
    the scheduler, then the two message streams, then waits for the endpoint
    routine, and only then calls the close callbacks, in registration order,
    and logs that the proxy is closed.  No wait in this sequence carries a
    deadline. *)
Theorem Close_order (w : World) (p : loc) (v : Proxy) :
  heap w !! p = Some v ->
  wf_proxy v ->
  outcome (Close p w) = Returns tt /\
  events (Close p w) =
    [ ECancel (proxyLoopCancel v) ]
    ++ match grpcServer v with
       | Some _ => [ EGracefulStop ]
       | None => []
       end
    ++ [ EClose tsoAllocator_ (Close_clean (env w) tsoAllocator_);
         EClose idAllocator_ (Close_clean (env w) idAllocator_);
         EClose segAssigner_ (Close_clean (env w) segAssigner_);
         EClose sched_ (Close_clean (env w) sched_);
         EClose manipulationMsgStream_
           (Close_clean (env w) manipulationMsgStream_);
         EClose queryMsgStream_ (Close_clean (env w) queryMsgStream_) ]
    ++ [ EWgWait ]
    ++ map ECallback (closeCallbacks v)
    ++ [ ELog "proxy closed." ] /\
  in_order shutdown_step (events (Close p w)) = true.
Proof.
  intros Hp Hwf. pose proof (Close_runs p w v Hp Hwf) as Hr.
  rewrite (runs_outcome _ _ _ _ _ Hr), (runs_events _ _ _ _ _ Hr).
  split; [ reflexivity | ]. split; [ | apply close_events_in_order ].
  unfold close_events, stopProxyLoop_events, stop_events.
  rewrite <- !app_assoc. reflexivity.
Qed.

Lemma Close_order_witness :
  events (Close 1%nat (serving_example env0)) =
    [ ECancel 0; EGracefulStop;
      EClose tsoAllocator_ true; EClose idAllocator_ true;
      EClose segAssigner_ true; EClose sched_ true;
      EClose manipulationMsgStream_ true; EClose queryMsgStream_ true;
      EWgWait; ECallback 9%nat; ELog "proxy closed." ].
Proof.
  refine (proj1 (proj2 (Close_order (serving_example env0) 1%nat
    (set_grpcServer (Some NewServer_)
       (started_proxy (example_world env0) (example_proxy env0))) _ _))).
  - apply lookup_stored.
  - split; [ intros []; reflexivity | cbn; lia ].
Defined.

(** The order of C2 as the specification states it does not hold: on the
    started example proxy the context is cancelled before the server stops
    accepting requests, and the wait comes after the components are
    closed. *)
Lemma Close_order_counterexample :
  in_order specified_shutdown_step
    (events (Close 1%nat (serving_example env0))) = false.
Proof. vm_compute. reflexivity. Qed.

(** * Callbacks *)

Lemma callbacks_of_app (l1 l2 : list Event) :
  callbacks_of (l1 ++ l2) = callbacks_of l1 ++ callbacks_of l2.
Proof. apply omap_app. Qed.

Lemma callbacks_of_start_events p v w :
  callbacks_of (start_events p v w) = startCallbacks v.
Proof.
  unfold start_events. rewrite !callbacks_of_app, callbacks_of_callbacks.
  cbn. apply app_nil_r.
Qed.

Lemma callbacks_of_close_events v w :
  callbacks_of (close_events v w) = closeCallbacks v.
Proof.
  unfold close_events, stopProxyLoop_events.
  rewrite !callbacks_of_app, callbacks_of_callbacks.
  unfold stop_events. destruct (grpcServer v); cbn; apply app_nil_r.
Qed.

Lemma start_events_callbacks_in_order p v w :
  in_order start_callback_step (start_events p v w) = true.
Proof.
  unfold start_events. rewrite !app_assoc. rewrite <- app_assoc.
  apply in_order_around_callbacks with (k := 2%nat);
    [ reflexivity | reflexivity | apply Forall_le_bound; reflexivity
    | reflexivity ].
Qed.

Lemma close_events_callbacks_in_order v w :
  in_order close_callback_step (close_events v w) = true.
Proof.
  unfold close_events, stopProxyLoop_events.
  rewrite !app_assoc. rewrite <- app_assoc.
  apply in_order_around_callbacks with (k := 2%nat).
  - reflexivity.
  - unfold stop_events. destruct (grpcServer v); reflexivity.
  - apply Forall_le_bound. unfold stop_events.
    destruct (grpcServer v); reflexivity.
  - reflexivity.
Qed.

(** C4, as the code has it.  Registration appends to the list of callbacks.
    A successful [Start] calls the registered start callbacks once each, in
    registration order, after the connection, the cache and every component
    have been started and before the endpoint routine is launched.  [Close]
    calls the registered close callbacks once each, in registration order,
    at the end of shutdown: after the cancellation, the server stop, the
    close of every component and the wait, just before the final log line. *)
Theorem callbacks_order (w : World) (p : loc) (v : Proxy)
  (cbs : list Callback) :
  heap w !! p = Some v ->
  wf_proxy v ->
  heap (final (AddStartCallback p cbs w)) !! p =
    Some (set_startCallbacks (startCallbacks v ++ cbs) v) /\
  heap (final (AddCloseCallback p cbs w)) !! p =
    Some (set_closeCallbacks (closeCallbacks v ++ cbs) v) /\
  (outcome (Start p w) = Returns None ->
   callbacks_of (events (Start p w)) = startCallbacks v /\
   in_order start_callback_step (events (Start p w)) = true) /\
  callbacks_of (events (Close p w)) = closeCallbacks v /\
  in_order close_callback_step (events (Close p w)) = true.
Proof.
  intros Hp Hwf. split; [ | split; [ | split ] ].
  - rewrite (runs_final _ _ _ _ _ (AddStartCallback_runs p w v cbs Hp)).
    apply lookup_stored.
  - rewrite (runs_final _ _ _ _ _ (AddCloseCallback_runs p w v cbs Hp)).
    apply lookup_stored.
  - intros Hout. pose proof (Start_succeeds_dialled p w Hout) as Hd.
    unfold Start.
    rewrite (runs_events _ _ _ _ _ (startProxy_ok p w v Hd Hp Hwf)).
    split; [ apply callbacks_of_start_events
           | apply start_events_callbacks_in_order ].
  - rewrite (runs_events _ _ _ _ _ (Close_runs p w v Hp Hwf)).
    split; [ apply callbacks_of_close_events
           | apply close_events_callbacks_in_order ].
Qed.

Lemma callbacks_order_witness :
  callbacks_of (events (Start 1%nat (example_world env0))) = [7%nat; 8%nat] /\
  callbacks_of (events (Close 1%nat (example_world env0))) = [9%nat].
Proof.
  pose proof (callbacks_order (example_world env0) 1%nat (example_proxy env0)
                [] (example_lookup env0 eq_refl eq_refl eq_refl eq_refl)
                (example_wf env0)) as (_ & _ & Hs & Hc & _).
  split; [ | exact Hc ].
  apply Hs. vm_compute. reflexivity.
Defined.

(** The placement of the close callbacks as the specification states it
    does not hold: on the started example proxy the close callback is called
    after the components have been closed. *)
Lemma callbacks_order_counterexample :
  in_order specified_close_callback_step
    (events (Close 1%nat (serving_example env0))) = false.
Proof. vm_compute. reflexivity. Qed.

(** * Failures at startup *)

(** C5.  Startup failures are fatal.  When the master cannot be dialled,
    [Start] returns the error of the dial to its caller.  When the endpoint
    cannot be bound, the endpoint routine ends the process with exit code 1
    right after the failed [Listen]: no server is created and nothing is
    served. *)
Theorem startup_failures_fatal (w : World) (p : loc) (e : Error) :
  (DialContext_err (env w) (MasterAddress (env w)) = Some e ->
   outcome (Start p w) = Returns (Some e)) /\
  (Listen_err (env w) "tcp" ":5053" = Some e ->
   outcome (grpcLoop p w) = Exits 1 /\
   events (grpcLoop p w) =
     [ EListen "tcp" ":5053";
       EFatal ("Proxy grpc server fatal error=" +:+ e) ]).
Proof.
  split.
  - intros Hd. unfold Start.
    apply (runs_outcome _ _ _ _ _ (startProxy_fails p w e Hd)).
  - intros Hl. pose proof (grpcLoop_listen_fails p w e Hl) as Hr.
    rewrite (runs_outcome _ _ _ _ _ Hr), (runs_events _ _ _ _ _ Hr).
    split; reflexivity.
Qed.

Lemma startup_failures_fatal_witness :
  outcome (Start 1%nat (example_world env_unreachable)) =
    Returns (Some "context deadline exceeded") /\
  outcome (grpcLoop 1%nat (started_world env_port_taken)) = Exits 1.
Proof.
  split.
  - apply (proj1 (startup_failures_fatal (example_world env_unreachable)
                    1%nat "context deadline exceeded")).
    reflexivity.
  - apply (proj2 (startup_failures_fatal (started_world env_port_taken) 1%nat
                    "listen tcp :5053: bind: address already in use")).
    reflexivity.
Defined.

(** C8.  When the dial fails, [Start] returns the error at once.  Apart from
    the two log lines, the dial itself and the release of the dial's own
    timeout context, nothing has happened: the proxy struct is untouched, no
    component was started, no callback was called, no routine was launched
    and nothing listens. *)
Theorem Start_atomic_on_dial_failure (w : World) (p : loc) (e : Error) :
  DialContext_err (env w) (MasterAddress (env w)) = Some e ->
  outcome (Start p w) = Returns (Some e) /\
  events (Start p w) =
    [ ELog ("Proxy connected to master, master_addr=" +:+ MasterAddress (env w));
      EDialContext (dial_ctx w) (MasterAddress (env w)) [WithInsecure; WithBlock];
      ELog ("Proxy connect to master failed, error= " +:+ e);
      ECancel (next_ctx w) ] /\
  heap (final (Start p w)) = heap w /\
  spawned (final (Start p w)) = spawned w /\
  (forall c, EStart c ∉ events (Start p w)) /\
  (forall cb, ECallback cb ∉ events (Start p w)) /\
  (forall r, EGo r ∉ events (Start p w)) /\
  (forall network address, EListen network address ∉ events (Start p w)) /\
  (forall ctx client, EInitGlobalMetaCache ctx client ∉ events (Start p w)).
Proof.
  intros Hd. pose proof (startProxy_fails p w e Hd) as Hr. unfold Start.
  rewrite (runs_outcome _ _ _ _ _ Hr), (runs_events _ _ _ _ _ Hr),
    (runs_final _ _ _ _ _ Hr).
  repeat split; try reflexivity; intros; intros Hin;
    unfold connect_failed_events in Hin;
    repeat (apply elem_of_cons in Hin as [Hin|Hin]; [discriminate|]);
    inversion Hin.
Qed.

Lemma Start_atomic_on_dial_failure_witness :
  outcome (Start 1%nat (example_world env_unreachable)) =
    Returns (Some "context deadline exceeded") /\
  heap (final (Start 1%nat (example_world env_unreachable))) =
    heap (example_world env_unreachable).
Proof.
  pose proof (Start_atomic_on_dial_failure (example_world env_unreachable)
                1%nat "context deadline exceeded" eq_refl)
    as (Ho & _ & Hh & _).
  split; [ exact Ho | exact Hh ].
Defined.

(** C10.  [Start] reports success before the endpoint exists.  When the dial
    succeeds [Start] returns [nil] whatever [Listen] and [Serve] are going to
    answer: by then it has only launched the endpoint routine, nothing
    listens yet and the proxy has no more of a gRPC server than before.  The
    routine listens on the fixed address ":5053"; when the bind fails, or
    when [Serve] later returns an error, the routine ends the whole process
    with exit code 1 through [log.Fatalf], and no error reaches the caller of
    [Start]. *)
Theorem Start_returns_before_endpoint (w : World) (p : loc) (v : Proxy) :
  heap w !! p = Some v ->
  wf_proxy v ->
  DialContext_err (env w) (MasterAddress (env w)) = None ->
  outcome (Start p w) = Returns None /\
  (forall network address, EListen network address ∉ events (Start p w)) /\
  grpcServer <$> heap (final (Start p w)) !! p = Some (grpcServer v) /\
  spawned (final (Start p w)) = spawned w ++ [grpcLoop_ p] /\
  (forall e, Listen_err (env w) "tcp" ":5053" = Some e ->
     outcome (grpcLoop p (final (Start p w))) = Exits 1 /\
     events (grpcLoop p (final (Start p w))) =
       [ EListen "tcp" ":5053";
         EFatal ("Proxy grpc server fatal error=" +:+ e) ]) /\
  (forall e, Listen_err (env w) "tcp" ":5053" = None ->
     Serve_err (env w) = Some e ->
     outcome (grpcLoop p (final (Start p w))) = Exits 1 /\
     events (grpcLoop p (final (Start p w))) =
       [ EListen "tcp" ":5053"; ENewServer; ERegisterMilvusServiceServer;
         EServe {| lis_network := "tcp"; lis_address := ":5053" |};
         EFatal ("Proxy grpc server fatal error=" +:+ e) ]).
Proof.
  intros Hp Hwf Hd. pose proof (startProxy_ok p w v Hd Hp Hwf) as Hr.
  unfold Start.
  rewrite (runs_outcome _ _ _ _ _ Hr), (runs_events _ _ _ _ _ Hr),
    (runs_final _ _ _ _ _ Hr).
  split; [ reflexivity | ].
  split; [ intros; apply start_events_no_listen | ].
  split; [ rewrite lookup_after_start; reflexivity | ].
  split; [ reflexivity | ].
  split.
  - intros e Hl.
    pose proof (grpcLoop_listen_fails p (after_start p v w) e Hl) as Hg.
    rewrite (runs_outcome _ _ _ _ _ Hg), (runs_events _ _ _ _ _ Hg).
    split; reflexivity.
  - intros e Hl Hs.
    pose proof (grpcLoop_serve_fails p (after_start p v w) _ e Hl
                  (lookup_after_start p v w) Hs) as Hg.
    rewrite (runs_outcome _ _ _ _ _ Hg), (runs_events _ _ _ _ _ Hg).
    split; reflexivity.
Qed.

Lemma Start_returns_before_endpoint_witness :
  outcome (Start 1%nat (example_world env_port_taken)) = Returns None /\
  outcome (grpcLoop 1%nat (final (Start 1%nat (example_world env_port_taken))))
    = Exits 1.
Proof.
  pose proof (Start_returns_before_endpoint (example_world env_port_taken)
                1%nat (example_proxy env_port_taken)
                (example_lookup env_port_taken eq_refl eq_refl eq_refl eq_refl)
                (example_wf env_port_taken) eq_refl)
    as (Ho & _ & _ & _ & Hl & _).
  split; [ exact Ho | ].
  exact (proj1 (Hl "listen tcp :5053: bind: address already in use" eq_refl)).
Defined.

(** * Teardown runs to its end *)




(** * Failures at construction *)

(** C9.  [CreateProxy] returns [(nil, err)] when the identifier allocator,
    the timestamp allocator or the task scheduler cannot be constructed, and
    panics with the error when the segment assigner cannot. *)
Theorem CreateProxy_failures (ctx : Ctx) (w : World) (e : Error) :
  (NewIDAllocator_err (env w) = Some e ->
   outcome (CreateProxy ctx w) = Returns (None, Some e)) /\
  (NewIDAllocator_err (env w) = None ->
   NewTimestampAllocator_err (env w) = Some e ->
   outcome (CreateProxy ctx w) = Returns (None, Some e)) /\
  (NewIDAllocator_err (env w) = None ->
   NewTimestampAllocator_err (env w) = None ->
   NewSegIDAssigner_err (env w) = None ->
   NewTaskScheduler_err (env w) = Some e ->
   outcome (CreateProxy ctx w) = Returns (None, Some e)) /\
  (NewIDAllocator_err (env w) = None ->
   NewTimestampAllocator_err (env w) = None ->
   NewSegIDAssigner_err (env w) = Some e ->
   outcome (CreateProxy ctx w) = Panics e).
Proof.
  split; [ | split; [ | split ] ].
  - intros H1. destruct (CreateProxy_id_fails ctx w e H1) as [w' Hr].
    apply (runs_outcome _ _ _ _ _ Hr).
  - intros H1 H2. destruct (CreateProxy_tso_fails ctx w e H1 H2) as [w' Hr].
    apply (runs_outcome _ _ _ _ _ Hr).
  - intros H1 H2 H3 H4.
    destruct (CreateProxy_sched_fails ctx w e H1 H2 H3 H4) as [w' Hr].
    apply (runs_outcome _ _ _ _ _ Hr).
  - intros H1 H2 H3.
    destruct (CreateProxy_seg_fails ctx w e H1 H2 H3) as [w' Hr].
    apply (runs_outcome _ _ _ _ _ Hr).
Qed.

Lemma CreateProxy_failures_witness :
  outcome (CreateProxy Background
             (world0 (env_ctor_fails (Some "no id") None None None))) =
    Returns (None, Some "no id") /\
  outcome (CreateProxy Background
             (world0 (env_ctor_fails None (Some "no tso") None None))) =
    Returns (None, Some "no tso") /\
  outcome (CreateProxy Background
             (world0 (env_ctor_fails None None None (Some "no sched")))) =
    Returns (None, Some "no sched") /\
  outcome (CreateProxy Background
             (world0 (env_ctor_fails None None (Some "no seg") None))) =
    Panics "no seg".
Proof.
  split; [ | split; [ | split ] ].
  - exact (proj1 (CreateProxy_failures Background
             (world0 (env_ctor_fails (Some "no id") None None None)) "no id")
             eq_refl).
  - exact (proj1 (proj2 (CreateProxy_failures Background
             (world0 (env_ctor_fails None (Some "no tso") None None))
             "no tso")) eq_refl eq_refl).
  - exact (proj1 (proj2 (proj2 (CreateProxy_failures Background
             (world0 (env_ctor_fails None None None (Some "no sched")))
             "no sched"))) eq_refl eq_refl eq_refl eq_refl).
  - exact (proj2 (proj2 (proj2 (CreateProxy_failures Background
             (world0 (env_ctor_fails None None (Some "no seg") None))
             "no seg"))) eq_refl eq_refl eq_refl).
Defined.

(** * The connection to the master *)

Lemma Forall_callbacks (P : Event -> Prop) (cbs : list Callback) :
  (forall cb, P (ECallback cb)) -> Forall P (map ECallback cbs).
Proof. intros H. induction cbs; cbn; constructor; auto. Qed.






(** * One cancellation signal *)

Lemma close_events_no_deadline v w :
  Forall (fun e => deadline e = None) (close_events v w).
Proof.
  unfold close_events, stopProxyLoop_events, stop_events.
  repeat apply Forall_app_2.
  - repeat constructor.
  - destruct (grpcServer v); repeat constructor.
  - repeat constructor.
  - repeat constructor.
  - apply Forall_callbacks. reflexivity.
  - repeat constructor.
Qed.

Lemma CreateProxy_succeeded ctx w p :
  outcome (CreateProxy ctx w) = Returns (Some p, None) ->
  p = next_loc w /\
  exists w',
    runs (CreateProxy ctx) w (Returns (Some (next_loc w), None))
      (create_events ctx w) w' /\
    heap w' !! next_loc w = Some (created_proxy ctx w).
Proof.
  intros Hout.
  destruct (NewIDAllocator_err (env w)) as [e|] eqn:H1.
  { destruct (CreateProxy_id_fails ctx w e H1) as [w' Hr].
    rewrite (runs_outcome _ _ _ _ _ Hr) in Hout. discriminate. }
  destruct (NewTimestampAllocator_err (env w)) as [e|] eqn:H2.
  { destruct (CreateProxy_tso_fails ctx w e H1 H2) as [w' Hr].
    rewrite (runs_outcome _ _ _ _ _ Hr) in Hout. discriminate. }
  destruct (NewSegIDAssigner_err (env w)) as [e|] eqn:H3.
  { destruct (CreateProxy_seg_fails ctx w e H1 H2 H3) as [w' Hr].
    rewrite (runs_outcome _ _ _ _ _ Hr) in Hout. discriminate. }
  destruct (NewTaskScheduler_err (env w)) as [e|] eqn:H4.
  { destruct (CreateProxy_sched_fails ctx w e H1 H2 H3 H4) as [w' Hr].
    rewrite (runs_outcome _ _ _ _ _ Hr) in Hout. discriminate. }
  destruct (CreateProxy_ok ctx w H1 H2 H3 H4) as (w' & Hr & Hh & _).
  rewrite (runs_outcome _ _ _ _ _ Hr) in Hout.
  split; [ congruence | ]. exists w'. split; assumption.
Qed.

Lemma created_proxy_built_from ctx w :
  built_from (created_ctx ctx w) (created_proxy ctx w).
Proof. repeat split. Qed.

(** Starting, serving and registering callbacks change none of the
    components nor the context. *)
Lemma same_components_started v0 v w :
  same_components v0 v -> same_components v0 (started_proxy w v).
Proof. intros H. exact H. Qed.

Lemma same_components_serving v0 v :
  same_components v0 v -> same_components v0 (set_grpcServer (Some NewServer_) v).
Proof. intros H. exact H. Qed.

Lemma same_components_callbacks v0 v l1 l2 :
  same_components v0 v ->
  same_components v0 (set_closeCallbacks l2 (set_startCallbacks l1 v)).
Proof. intros H. exact H. Qed.

(** C3, as the code has it.  [CreateProxy] derives one cancellable context
    and constructs both message streams, the three allocators and the
    scheduler from it; [Start] initialises the metadata cache with it.
    [Close] calls the cancel function of that context as its very first
    step, before any component is closed, and the context is cancelled when
    [Close] returns.  No call of [Close] is given a deadline: there is no
    timed grace period. *)
Theorem shared_cancellation (ctx : Ctx) (w0 : World) (p : loc) :
  outcome (CreateProxy ctx w0) = Returns (Some p, None) ->
  heap (final (CreateProxy ctx w0)) !! p = Some (created_proxy ctx w0) /\
  proxyLoopCtx (created_proxy ctx w0) = WithCancel (next_ctx w0) ctx /\
  proxyLoopCancel (created_proxy ctx w0) = next_ctx w0 /\
  built_from (WithCancel (next_ctx w0) ctx) (created_proxy ctx w0) /\
  events (CreateProxy ctx w0) =
    [ ERandSeed;
      ENewPulsarMsgStream manipulationMsgStream_
        (WithCancel (next_ctx w0) ctx) 1000;
      ESetPulsarClient manipulationMsgStream_ (PulsarAddress (env w0));
      ECreatePulsarProducers manipulationMsgStream_ ["manipulation"];
      ENewPulsarMsgStream queryMsgStream_ (WithCancel (next_ctx w0) ctx) 1000;
      ESetPulsarClient queryMsgStream_ (PulsarAddress (env w0));
      ECreatePulsarProducers queryMsgStream_ ["query"];
      ENewIDAllocator (WithCancel (next_ctx w0) ctx) (MasterAddress (env w0));
      ENewTimestampAllocator (WithCancel (next_ctx w0) ctx)
        (MasterAddress (env w0));
      ENewSegIDAssigner (WithCancel (next_ctx w0) ctx)
        (MasterAddress (env w0));
      ENewTaskScheduler (WithCancel (next_ctx w0) ctx) ] /\
  forall w v,
    heap w !! p = Some v -> wf_proxy v ->
    same_components (created_proxy ctx w0) v ->
    (outcome (Start p w) = Returns None ->
     exists client,
       EInitGlobalMetaCache (WithCancel (next_ctx w0) ctx) client
         ∈ events (Start p w)) /\
    (exists rest, events (Close p w) = ECancel (next_ctx w0) :: rest) /\
    is_cancelled (WithCancel (next_ctx w0) ctx) (final (Close p w)) = true /\
    Forall (fun e => deadline e = None) (events (Close p w)).
Proof.
  intros Hout.
  destruct (CreateProxy_succeeded ctx w0 p Hout) as (-> & w' & Hr & Hh).
  rewrite (runs_final _ _ _ _ _ Hr), (runs_events _ _ _ _ _ Hr).
  split; [ exact Hh | ]. split; [ reflexivity | ]. split; [ reflexivity | ].
  split; [ apply created_proxy_built_from | ]. split; [ reflexivity | ].
  intros w v Hp Hwf (Hctx & Hcancel & _).
  cbn [created_proxy proxyLoopCtx proxyLoopCancel] in Hctx, Hcancel.
  pose proof (Close_runs (next_loc w0) w v Hp Hwf) as Hc.
  rewrite (runs_events _ _ _ _ _ Hc), (runs_final _ _ _ _ _ Hc).
  split; [ | split; [ | split ] ].
  - intros Hs. pose proof (Start_succeeds_dialled _ w Hs) as Hd.
    unfold Start.
    rewrite (runs_events _ _ _ _ _ (startProxy_ok _ w v Hd Hp Hwf)).
    eexists. unfold start_events. rewrite Hctx.
    apply elem_of_app. right. apply elem_of_app. left. constructor.
  - eexists. unfold close_events, stopProxyLoop_events. rewrite Hcancel.
    reflexivity.
  - unfold is_cancelled, after_close. cbn. rewrite Hcancel.
    apply bool_decide_eq_true. constructor.
  - apply close_events_no_deadline.
Qed.

Lemma shared_cancellation_witness :
  heap (final (CreateProxy Background (world0 env0))) !! 1%nat =
    Some (created_proxy Background (world0 env0)) /\
  built_from (WithCancel 0 Background)
    (created_proxy Background (world0 env0)) /\
  (exists rest,
     events (Close 1%nat (serving_example env0)) = ECancel 0 :: rest) /\
  is_cancelled (WithCancel 0 Background)
    (final (Close 1%nat (serving_example env0))) = true.
Proof.
  destruct (shared_cancellation Background (world0 env0) 1%nat)
    as (Hh & Hctx & Hcancel & Hb & Hev & Hlater).
  { vm_compute. reflexivity. }
  split; [ exact Hh | ]. split; [ exact Hb | ].
  destruct (Hlater (serving_example env0)
              (set_grpcServer (Some NewServer_)
                 (started_proxy (example_world env0) (example_proxy env0))))
    as (_ & Hrest & Hc & _).
  - apply lookup_stored.
  - split; [ intros []; reflexivity | cbn; lia ].
  - repeat split.
  - split; [ exact Hrest | exact Hc ].
Defined.

Lemma serving_example_lookup (e : Env) :
  heap (serving_example e) !! 1%nat =
    Some (set_grpcServer (Some NewServer_)
            (started_proxy (example_world e) (example_proxy e))).
Proof. apply lookup_stored. Qed.

Lemma serving_example_wf (e : Env) :
  wf_proxy (set_grpcServer (Some NewServer_)
              (started_proxy (example_world e) (example_proxy e))).
Proof. split; [ intros []; reflexivity | cbn; lia ]. Qed.

Lemma no_deadline_no_grace (es : list Event) :
  Forall (fun e => deadline e = None) es -> ~ bounded_grace_period es.
Proof.
  intros Hall (e & d & Hin & Hd).
  induction Hall as [|x l Hx Hl IH].
  - inversion Hin.
  - apply elem_of_cons in Hin as [->|Hin]; [ congruence | exact (IH Hin) ].
Qed.

(** The grace period of C3 as the specification states it does not exist:
    in the shutdown of the started example proxy no call waits under a
    deadline. *)
Lemma shared_cancellation_counterexample :
  ~ bounded_grace_period (events (Close 1%nat (serving_example env0))).
Proof.
  apply no_deadline_no_grace.
  rewrite (runs_events _ _ _ _ _
             (Close_runs 1%nat (serving_example env0) _
                (serving_example_lookup env0) (serving_example_wf env0))).
  apply close_events_no_deadline.
Qed.

(** * What construction never does *)

Lemma quiet_ret {A} P (a : A) : quiet P (mret a).
Proof. intros w. repeat split. constructor. Qed.

Lemma quiet_bind {A B} P (m : Go A) (f : A -> Go B) :
  quiet P m -> (forall a, quiet P (f a)) -> quiet P (m ≫= f).
Proof.
  intros Hm Hf w. destruct (Hm w) as (H1 & H2 & H3 & H4).
  unfold mbind, Go_bind. cbn zeta.
  destruct (outcome (m w)) as [a|e|c]; cbn [events final];
    [ | repeat split; assumption .. ].
  destruct (Hf a (final (m w))) as (K1 & K2 & K3 & K4).
  repeat split.
  - apply Forall_app_2; assumption.
  - congruence.
  - congruence.
  - congruence.
Qed.

Lemma quiet_emit P e : P e = true -> quiet P (emit e).
Proof. intros H w. repeat split. repeat constructor. exact H. Qed.

Lemma quiet_panic {A} P e : quiet P (@panic A e).
Proof. intros w. repeat split. constructor. Qed.

Lemma quiet_gets {A} P (f : World -> A) : quiet P (gets f).
Proof. intros w. repeat split. constructor. Qed.

Lemma quiet_load P p : quiet P (load p).
Proof.
  intros w. unfold load. destruct (heap w !! p); repeat split; constructor.
Qed.

Lemma quiet_store P p v : quiet P (store p v).
Proof. intros w. repeat split. constructor. Qed.

Lemma quiet_alloc P v : quiet P (alloc v).
Proof. intros w. repeat split. constructor. Qed.

Lemma quiet_context_WithCancel P parent : quiet P (context_WithCancel parent).
Proof. intros w. repeat split. constructor. Qed.

(** Take a program apart along its binds and case distinctions. *)
Ltac quiet_tac :=
  repeat first
    [ apply quiet_ret | apply quiet_panic | apply quiet_gets
    | apply quiet_load | apply quiet_store | apply quiet_alloc
    | apply quiet_context_WithCancel
    | apply quiet_emit; reflexivity
    | apply quiet_bind; [ | intros ? ]
    | match goal with
      | |- quiet _ (match ?x with _ => _ end) => destruct x
      end ].

Lemma quiet_assign P p f : quiet P (assign p f).
Proof. unfold assign. quiet_tac. Qed.

Lemma quiet_SetPulsarClient c get set p a :
  quiet construction_call (SetPulsarClient c get set p a).
Proof. unfold SetPulsarClient. quiet_tac. Qed.

Lemma quiet_CreatePulsarProducers c get set p l :
  quiet construction_call (CreatePulsarProducers c get set p l).
Proof. unfold CreatePulsarProducers. quiet_tac. Qed.

Lemma quiet_CreateProxy ctx : quiet construction_call (CreateProxy ctx).
Proof.
  unfold CreateProxy, rand_Seed, Params_PulsarAddress, Params_MasterAddress,
    msgstream_NewPulsarMsgStream, allocator_NewIDAllocator,
    allocator_NewTimestampAllocator, allocator_NewSegIDAssigner,
    NewTaskScheduler.
  repeat first
    [ apply quiet_assign | apply quiet_SetPulsarClient
    | apply quiet_CreatePulsarProducers | progress quiet_tac ].
Qed.

(** X3.  Whatever the constructors answer and however it ends, [CreateProxy]
    only constructs and configures: it starts and closes no component, dials
    nothing, launches no routine and cancels no context.  In particular,
    when a later constructor fails, the streams and allocators built before
    it are not closed and the derived context is not cancelled. *)
Theorem CreateProxy_only_constructs (ctx : Ctx) (w : World) :
  Forall (fun e => construction_call e = true) (events (CreateProxy ctx w)) /\
  cancelled (final (CreateProxy ctx w)) = cancelled w /\
  spawned (final (CreateProxy ctx w)) = spawned w.
Proof.
  destruct (quiet_CreateProxy ctx w) as (H1 & H2 & H3 & _).
  repeat split; assumption.
Qed.

(** * What CreateProxy hands back *)

(** X1.  Whenever [CreateProxy] returns, exactly one of the pointer and the
    error is [nil]: it returns the fresh proxy and no error when all four
    constructors succeed, and no proxy together with the error of the first
    failing constructor otherwise.  (A failing segment assigner makes it
    panic instead of returning.) *)
Theorem CreateProxy_result_shape (ctx : Ctx) (w : World)
  (r : option loc * option Error) :
  outcome (CreateProxy ctx w) = Returns r ->
  (r = (Some (next_loc w), None) /\
   NewIDAllocator_err (env w) = None /\
   NewTimestampAllocator_err (env w) = None /\
   NewSegIDAssigner_err (env w) = None /\
   NewTaskScheduler_err (env w) = None) \/
  (exists e,
     r = (None, Some e) /\
     (NewIDAllocator_err (env w) = Some e \/
      (NewIDAllocator_err (env w) = None /\
       NewTimestampAllocator_err (env w) = Some e) \/
      (NewIDAllocator_err (env w) = None /\
       NewTimestampAllocator_err (env w) = None /\
       NewSegIDAssigner_err (env w) = None /\
       NewTaskScheduler_err (env w) = Some e))).
Proof.
  intros Hout.
  destruct (NewIDAllocator_err (env w)) as [e|] eqn:H1.
  { destruct (CreateProxy_id_fails ctx w e H1) as [w' Hr].
    rewrite (runs_outcome _ _ _ _ _ Hr) in Hout.
    right. exists e. split; [ congruence | left; reflexivity ]. }
  destruct (NewTimestampAllocator_err (env w)) as [e|] eqn:H2.
  { destruct (CreateProxy_tso_fails ctx w e H1 H2) as [w' Hr].
    rewrite (runs_outcome _ _ _ _ _ Hr) in Hout.
    right. exists e. split; [ congruence | right; left; split; reflexivity ]. }
  destruct (NewSegIDAssigner_err (env w)) as [e|] eqn:H3.
  { destruct (CreateProxy_seg_fails ctx w e H1 H2 H3) as [w' Hr].
    rewrite (runs_outcome _ _ _ _ _ Hr) in Hout. discriminate. }
  destruct (NewTaskScheduler_err (env w)) as [e|] eqn:H4.
  { destruct (CreateProxy_sched_fails ctx w e H1 H2 H3 H4) as [w' Hr].
    rewrite (runs_outcome _ _ _ _ _ Hr) in Hout.
    right. exists e. split; [ congruence | ].
    right; right. repeat split; reflexivity. }
  destruct (CreateProxy_ok ctx w H1 H2 H3 H4) as (w' & Hr & _).
  rewrite (runs_outcome _ _ _ _ _ Hr) in Hout.
  left. split; [ congruence | repeat split; reflexivity ].
Qed.

Lemma CreateProxy_result_shape_witness :
  ((Some 1%nat, @None Error) = (Some (next_loc (world0 env0)), None) /\
   NewIDAllocator_err (env (world0 env0)) = None /\
   NewTimestampAllocator_err (env (world0 env0)) = None /\
   NewSegIDAssigner_err (env (world0 env0)) = None /\
   NewTaskScheduler_err (env (world0 env0)) = None) \/
  (exists e,
     (Some 1%nat, @None Error) = (None, Some e) /\
     (NewIDAllocator_err (env (world0 env0)) = Some e \/
      (NewIDAllocator_err (env (world0 env0)) = None /\
       NewTimestampAllocator_err (env (world0 env0)) = Some e) \/
      (NewIDAllocator_err (env (world0 env0)) = None /\
       NewTimestampAllocator_err (env (world0 env0)) = None /\
       NewSegIDAssigner_err (env (world0 env0)) = None /\
       NewTaskScheduler_err (env (world0 env0)) = Some e))).
Proof.
  apply (CreateProxy_result_shape Background (world0 env0) (Some 1%nat, None)).
  vm_compute. reflexivity.
Defined.

(** X2.  The proxy of a successful [CreateProxy]: both streams have buffer
    size 1000 and the configured Pulsar address as client, the manipulation
    stream produces on channel "manipulation" and the query stream on channel
    "query"; the three allocators are given the configured master address;
    the scheduler works with the very identifier and timestamp allocators the
    proxy holds; there is no server and no connection yet, the wait counter
    is zero and no callback is registered. *)
Theorem CreateProxy_configuration (ctx : Ctx) (w : World) (p : loc) :
  outcome (CreateProxy ctx w) = Returns (Some p, None) ->
  exists v,
    heap (final (CreateProxy ctx w)) !! p = Some v /\
    manipulationMsgStream v =
      Some {| ms_ctx := WithCancel (next_ctx w) ctx; ms_bufSize := 1000;
              ms_client := Some (PulsarAddress (env w));
              ms_producers := ["manipulation"] |} /\
    queryMsgStream v =
      Some {| ms_ctx := WithCancel (next_ctx w) ctx; ms_bufSize := 1000;
              ms_client := Some (PulsarAddress (env w));
              ms_producers := ["query"] |} /\
    ida_masterAddr <$> idAllocator v = Some (MasterAddress (env w)) /\
    tsa_masterAddr <$> tsoAllocator v = Some (MasterAddress (env w)) /\
    sia_masterAddr <$> segAssigner v = Some (MasterAddress (env w)) /\
    ts_idAllocator <$> sched v = Some (idAllocator v) /\
    ts_tsoAllocator <$> sched v = Some (tsoAllocator v) /\
    grpcServer v = None /\ masterConn v = None /\ masterClient v = None /\
    proxyLoopWg v = 0 /\ startCallbacks v = [] /\ closeCallbacks v = [] /\
    wf_proxy v.
Proof.
  intros Hout.
  destruct (CreateProxy_succeeded ctx w p Hout) as (-> & w' & Hr & Hh).
  exists (created_proxy ctx w).
  rewrite (runs_final _ _ _ _ _ Hr).
  split; [ exact Hh | ].
  repeat split; try reflexivity.
  intros []; reflexivity.
Qed.

Lemma CreateProxy_configuration_witness :
  exists v,
    heap (final (CreateProxy Background (world0 env0))) !! 1%nat = Some v /\
    manipulationMsgStream v =
      Some {| ms_ctx := WithCancel (next_ctx (world0 env0)) Background;
              ms_bufSize := 1000;
              ms_client := Some (PulsarAddress (env (world0 env0)));
              ms_producers := ["manipulation"] |} /\
    queryMsgStream v =
      Some {| ms_ctx := WithCancel (next_ctx (world0 env0)) Background;
              ms_bufSize := 1000;
              ms_client := Some (PulsarAddress (env (world0 env0)));
              ms_producers := ["query"] |} /\
    ida_masterAddr <$> idAllocator v = Some (MasterAddress (env (world0 env0))) /\
    tsa_masterAddr <$> tsoAllocator v = Some (MasterAddress (env (world0 env0))) /\
    sia_masterAddr <$> segAssigner v = Some (MasterAddress (env (world0 env0))) /\
    ts_idAllocator <$> sched v = Some (idAllocator v) /\
    ts_tsoAllocator <$> sched v = Some (tsoAllocator v) /\
    grpcServer v = None /\ masterConn v = None /\ masterClient v = None /\
    proxyLoopWg v = 0 /\ startCallbacks v = [] /\ closeCallbacks v = [] /\
    wf_proxy v.
Proof.
  apply (CreateProxy_configuration Background (world0 env0) 1%nat).
  vm_compute. reflexivity.
Defined.

(** X4.  Construction stops at the first failure.  When the identifier
    allocator cannot be constructed, both streams have been created and
    configured and no other constructor is called; when the timestamp
    allocator fails, the segment assigner and the scheduler are not
    constructed; when the segment assigner fails, the scheduler is not
    constructed. *)
Theorem CreateProxy_stops_at_first_failure (ctx : Ctx) (w : World)
  (e : Error) :
  (NewIDAllocator_err (env w) = Some e ->
   events (CreateProxy ctx w) =
     [ ERandSeed;
       ENewPulsarMsgStream manipulationMsgStream_ (WithCancel (next_ctx w) ctx) 1000;
       ESetPulsarClient manipulationMsgStream_ (PulsarAddress (env w));
       ECreatePulsarProducers manipulationMsgStream_ ["manipulation"];
       ENewPulsarMsgStream queryMsgStream_ (WithCancel (next_ctx w) ctx) 1000;
       ESetPulsarClient queryMsgStream_ (PulsarAddress (env w));
       ECreatePulsarProducers queryMsgStream_ ["query"];
       ENewIDAllocator (WithCancel (next_ctx w) ctx) (MasterAddress (env w)) ]) /\
  (NewIDAllocator_err (env w) = None ->
   NewTimestampAllocator_err (env w) = Some e ->
   forall a,
     (ENewSegIDAssigner (WithCancel (next_ctx w) ctx) a
        ∉ events (CreateProxy ctx w)) /\
     (ENewTaskScheduler (WithCancel (next_ctx w) ctx)
        ∉ events (CreateProxy ctx w))) /\
  (NewIDAllocator_err (env w) = None ->
   NewTimestampAllocator_err (env w) = None ->
   NewSegIDAssigner_err (env w) = Some e ->
   (ENewSegIDAssigner (WithCancel (next_ctx w) ctx) (MasterAddress (env w))
      ∈ events (CreateProxy ctx w)) /\
   (ENewTaskScheduler (WithCancel (next_ctx w) ctx)
      ∉ events (CreateProxy ctx w))).
Proof.
  split; [ | split ].
  - intros H1. destruct (CreateProxy_id_fails ctx w e H1) as [w' Hr].
    rewrite (runs_events _ _ _ _ _ Hr). reflexivity.
  - intros H1 H2 a.
    destruct (CreateProxy_tso_fails ctx w e H1 H2) as [w' Hr].
    rewrite (runs_events _ _ _ _ _ Hr). unfold stream_events.
    split; intros Hin;
      repeat (apply elem_of_cons in Hin as [Hin|Hin]; [discriminate|]);
      inversion Hin.
  - intros H1 H2 H3.
    destruct (CreateProxy_seg_fails ctx w e H1 H2 H3) as [w' Hr].
    rewrite (runs_events _ _ _ _ _ Hr). unfold stream_events. split.
    + repeat constructor.
    + intros Hin.
      repeat (apply elem_of_cons in Hin as [Hin|Hin]; [discriminate|]);
      inversion Hin.
Qed.

Lemma CreateProxy_stops_at_first_failure_witness :
  events (CreateProxy Background
            (world0 (env_ctor_fails (Some "no id") None None None))) =
    [ ERandSeed;
      ENewPulsarMsgStream manipulationMsgStream_ (WithCancel 0 Background) 1000;
      ESetPulsarClient manipulationMsgStream_ "pulsar://localhost:6650";
      ECreatePulsarProducers manipulationMsgStream_ ["manipulation"];
      ENewPulsarMsgStream queryMsgStream_ (WithCancel 0 Background) 1000;
      ESetPulsarClient queryMsgStream_ "pulsar://localhost:6650";
      ECreatePulsarProducers queryMsgStream_ ["query"];
      ENewIDAllocator (WithCancel 0 Background) "localhost:53100" ] /\
  (ENewTaskScheduler (WithCancel 0 Background)
     ∉ events (CreateProxy Background
                 (world0 (env_ctor_fails None (Some "no tso") None None)))) /\
  (ENewTaskScheduler (WithCancel 0 Background)
     ∉ events (CreateProxy Background
                 (world0 (env_ctor_fails None None (Some "no seg") None)))).
Proof.
  split; [ | split ].
  - exact (proj1 (CreateProxy_stops_at_first_failure Background
             (world0 (env_ctor_fails (Some "no id") None None None)) "no id")
             eq_refl).
  - exact (proj2 (proj1 (proj2 (CreateProxy_stops_at_first_failure Background
             (world0 (env_ctor_fails None (Some "no tso") None None))
             "no tso")) eq_refl eq_refl "")).
  - exact (proj2 (proj2 (proj2 (CreateProxy_stops_at_first_failure Background
             (world0 (env_ctor_fails None None (Some "no seg") None))
             "no seg")) eq_refl eq_refl eq_refl)).
Defined.

(** * Registration of callbacks *)

Lemma set_startCallbacks_same v : set_startCallbacks (startCallbacks v) v = v.
Proof. destruct v; reflexivity. Qed.

Lemma set_closeCallbacks_same v : set_closeCallbacks (closeCallbacks v) v = v.
Proof. destruct v; reflexivity. Qed.

Lemma AddStartCallback_twice_runs p w v a b :
  heap w !! p = Some v ->
  runs (AddStartCallback p a ;; AddStartCallback p b) w (Returns tt) []
    (with_heap
       (<[p := set_startCallbacks (startCallbacks v ++ a ++ b) v]>
          (<[p := set_startCallbacks (startCallbacks v ++ a) v]> (heap w)))
       (next_loc w) w).
Proof.
  intros Hp.
  eapply runs_bind;
    [ apply AddStartCallback_runs; exact Hp | cbn beta | reflexivity ].
  eapply runs_weaken;
    [ apply AddStartCallback_runs; apply lookup_stored | ].
  cbn. rewrite <- app_assoc. reflexivity.
Qed.

Lemma AddCloseCallback_twice_runs p w v a b :
  heap w !! p = Some v ->
  runs (AddCloseCallback p a ;; AddCloseCallback p b) w (Returns tt) []
    (with_heap
       (<[p := set_closeCallbacks (closeCallbacks v ++ a ++ b) v]>
          (<[p := set_closeCallbacks (closeCallbacks v ++ a) v]> (heap w)))
       (next_loc w) w).
Proof.
  intros Hp.
  eapply runs_bind;
    [ apply AddCloseCallback_runs; exact Hp | cbn beta | reflexivity ].
  eapply runs_weaken;
    [ apply AddCloseCallback_runs; apply lookup_stored | ].
  cbn. rewrite <- app_assoc. reflexivity.
Qed.

(** X5.  Registrations compose and do not interfere.  Registering [a] and
    then [b] leaves the proxy as registering [a ++ b] at once does;
    registering nothing leaves the proxy as it is; start and close callbacks
    are kept apart, so the two kinds of registration commute.  No
    registration calls anything. *)
Theorem registration_composes (w : World) (p : loc) (v : Proxy)
  (a b : list Callback) :
  heap w !! p = Some v ->
  heap (final ((AddStartCallback p a ;; AddStartCallback p b) w)) !! p =
    heap (final (AddStartCallback p (a ++ b) w)) !! p /\
  heap (final ((AddCloseCallback p a ;; AddCloseCallback p b) w)) !! p =
    heap (final (AddCloseCallback p (a ++ b) w)) !! p /\
  heap (final (AddStartCallback p [] w)) !! p = Some v /\
  heap (final (AddCloseCallback p [] w)) !! p = Some v /\
  heap (final ((AddStartCallback p a ;; AddCloseCallback p b) w)) !! p =
    heap (final ((AddCloseCallback p b ;; AddStartCallback p a) w)) !! p /\
  events ((AddStartCallback p a ;; AddCloseCallback p b) w) = [].
Proof.
  intros Hp. repeat split.
  - rewrite (runs_final _ _ _ _ _ (AddStartCallback_twice_runs p w v a b Hp)).
    rewrite (runs_final _ _ _ _ _ (AddStartCallback_runs p w v (a ++ b) Hp)).
    rewrite !lookup_stored. reflexivity.
  - rewrite (runs_final _ _ _ _ _ (AddCloseCallback_twice_runs p w v a b Hp)).
    rewrite (runs_final _ _ _ _ _ (AddCloseCallback_runs p w v (a ++ b) Hp)).
    rewrite !lookup_stored. reflexivity.
  - rewrite (runs_final _ _ _ _ _ (AddStartCallback_runs p w v [] Hp)).
    rewrite lookup_stored, app_nil_r, set_startCallbacks_same. reflexivity.
  - rewrite (runs_final _ _ _ _ _ (AddCloseCallback_runs p w v [] Hp)).
    rewrite lookup_stored, app_nil_r, set_closeCallbacks_same. reflexivity.
  - erewrite (runs_final (AddStartCallback p a ;; AddCloseCallback p b));
      [ | eapply runs_bind;
          [ apply AddStartCallback_runs; exact Hp
          | apply AddCloseCallback_runs; apply lookup_stored
          | reflexivity ] ].
    erewrite (runs_final (AddCloseCallback p b ;; AddStartCallback p a));
      [ | eapply runs_bind;
          [ apply AddCloseCallback_runs; exact Hp
          | apply AddStartCallback_runs; apply lookup_stored
          | reflexivity ] ].
    rewrite !lookup_stored. reflexivity.
  - erewrite (runs_events (AddStartCallback p a ;; AddCloseCallback p b));
      [ reflexivity | ].
    eapply runs_bind;
      [ apply AddStartCallback_runs; exact Hp
      | apply AddCloseCallback_runs; apply lookup_stored
      | reflexivity ].
Qed.

Lemma registration_composes_witness :
  heap (final ((AddStartCallback 1%nat [3%nat] ;; AddStartCallback 1%nat [4%nat])
                 (example_world env0))) !! 1%nat =
    heap (final (AddStartCallback 1%nat ([3%nat] ++ [4%nat])
                   (example_world env0))) !! 1%nat.
Proof.
  exact (proj1 (registration_composes (example_world env0) 1%nat
                  (example_proxy env0) [3%nat] [4%nat]
                  (example_lookup env0 eq_refl eq_refl eq_refl eq_refl))).
Defined.

(** * Close and the endpoint routine *)

Lemma no_GracefulStop_without_server v w :
  grpcServer v = None -> EGracefulStop ∉ close_events v w.
Proof.
  intros Hs Hin. unfold close_events, stopProxyLoop_events, stop_events in Hin.
  rewrite Hs in Hin.
  repeat (apply elem_of_app in Hin as [Hin|Hin]).
  - repeat (apply elem_of_cons in Hin as [Hin|Hin]; [discriminate|]).
    inversion Hin.
  - inversion Hin.
  - unfold component_close_events in Hin.
    repeat (apply elem_of_cons in Hin as [Hin|Hin]; [discriminate|]).
    inversion Hin.
  - repeat (apply elem_of_cons in Hin as [Hin|Hin]; [discriminate|]).
    inversion Hin.
  - apply elem_of_callbacks in Hin as [cb Hcb]. discriminate.
  - repeat (apply elem_of_cons in Hin as [Hin|Hin]; [discriminate|]).
    inversion Hin.
Qed.


(** X6.  [Close] stops the gRPC server exactly when the endpoint routine has
    created it: with [grpcServer] still [nil] no [GracefulStop] is issued. *)
Theorem Close_stops_server_iff_created (w : World) (p : loc) (v : Proxy) :
  heap w !! p = Some v ->
  wf_proxy v ->
  (EGracefulStop ∈ events (Close p w) <-> grpcServer v <> None).
Proof.
  intros Hp Hwf. rewrite (runs_events _ _ _ _ _ (Close_runs p w v Hp Hwf)).
  destruct (grpcServer v) as [s|] eqn:Hs.
  - split; [ discriminate | intros _ ].
    unfold close_events, stopProxyLoop_events, stop_events. rewrite Hs.
    apply elem_of_app. left. apply elem_of_app. right.
    apply elem_of_app. left. constructor.
  - split; [ intros Hin | intros H; contradiction ].
    exfalso. exact (no_GracefulStop_without_server v w Hs Hin).
Qed.

Lemma Close_stops_server_iff_created_witness :
  (EGracefulStop ∈ events (Close 1%nat (serving_example env0)) <->
   grpcServer (set_grpcServer (Some NewServer_)
                 (started_proxy (example_world env0) (example_proxy env0)))
     <> None) /\
  (EGracefulStop ∈ events (Close 1%nat (example_world env0)) <->
   grpcServer (example_proxy env0) <> None).
Proof.
  split.
  - exact (Close_stops_server_iff_created (serving_example env0) 1%nat _
             (serving_example_lookup env0) (serving_example_wf env0)).
  - exact (Close_stops_server_iff_created (example_world env0) 1%nat _
             (example_lookup env0 eq_refl eq_refl eq_refl eq_refl)
             (example_wf env0)).
Defined.

Lemma started_proxy_wf w v : wf_proxy v -> wf_proxy (started_proxy w v).
Proof.
  intros [Hn Hwg]. split.
  - intros c. rewrite <- (Hn c). destruct c; reflexivity.
  - cbn. lia.
Qed.





(** * The wait counter *)

(** X9.  [Start] raises the wait counter by one for the endpoint routine.
    When the routine ends normally ([Listen] succeeds and [Serve] returns
    [nil]), its deferred [Done] brings the counter back to the value it had
    before [Start], and the proxy holds the server the routine created.
    When the routine ends the process because the bind fails, the deferred
    [Done] does not run: the counter stays raised and no server is stored. *)
Theorem endpoint_routine_balances_counter (w : World) (p : loc) (v : Proxy) :
  heap w !! p = Some v ->
  wf_proxy v ->
  DialContext_err (env w) (MasterAddress (env w)) = None ->
  proxyLoopWg <$> heap (final (Start p w)) !! p = Some (proxyLoopWg v + 1) /\
  (Listen_err (env w) "tcp" ":5053" = None ->
   Serve_err (env w) = None ->
   outcome (grpcLoop p (final (Start p w))) = Returns tt /\
   proxyLoopWg <$> heap (final (grpcLoop p (final (Start p w)))) !! p =
     Some (proxyLoopWg v) /\
   grpcServer <$> heap (final (grpcLoop p (final (Start p w)))) !! p =
     Some (Some NewServer_)) /\
  (forall e,
     Listen_err (env w) "tcp" ":5053" = Some e ->
     (EWgDone ∉ events (grpcLoop p (final (Start p w)))) /\
     proxyLoopWg <$> heap (final (grpcLoop p (final (Start p w)))) !! p =
       Some (proxyLoopWg v + 1) /\
     grpcServer <$> heap (final (grpcLoop p (final (Start p w)))) !! p =
       Some (grpcServer v)).
Proof.
  intros Hp Hwf Hd. pose proof (startProxy_ok p w v Hd Hp Hwf) as Hr.
  unfold Start. rewrite (runs_final _ _ _ _ _ Hr).
  split; [ rewrite lookup_after_start; reflexivity | ]. split.
  - intros Hl Hs.
    assert (Hwg : 0 < proxyLoopWg (started_proxy w v))
      by (destruct Hwf as [_ Hwg]; cbn; lia).
    pose proof (grpcLoop_ok p (after_start p v w) (started_proxy w v) Hl
                  (lookup_after_start p v w) Hs Hwg) as Hg.
    rewrite (runs_outcome _ _ _ _ _ Hg), (runs_final _ _ _ _ _ Hg).
    rewrite lookup_stored. cbn.
    repeat split. f_equal. lia.
  - intros e Hl.
    pose proof (grpcLoop_listen_fails p (after_start p v w) e Hl) as Hg.
    rewrite (runs_events _ _ _ _ _ Hg), (runs_final _ _ _ _ _ Hg).
    rewrite lookup_after_start. repeat split.
    intros Hin.
    repeat (apply elem_of_cons in Hin as [Hin|Hin]; [discriminate|]).
    inversion Hin.
Qed.

Lemma endpoint_routine_balances_counter_witness :
  proxyLoopWg <$>
    heap (final (grpcLoop 1%nat (final (Start 1%nat (example_world env0)))))
      !! 1%nat = Some (proxyLoopWg (example_proxy env0)) /\
  proxyLoopWg <$>
    heap (final (grpcLoop 1%nat
                   (final (Start 1%nat (example_world env_port_taken)))))
      !! 1%nat = Some (proxyLoopWg (example_proxy env_port_taken) + 1).
Proof.
  split.
  - exact (proj1 (proj2 (proj1 (proj2
      (endpoint_routine_balances_counter (example_world env0) 1%nat
         (example_proxy env0)
         (example_lookup env0 eq_refl eq_refl eq_refl eq_refl)
         (example_wf env0) eq_refl)) eq_refl eq_refl))).
  - exact (proj1 (proj2 (proj2 (proj2
      (endpoint_routine_balances_counter (example_world env_port_taken) 1%nat
         (example_proxy env_port_taken)
         (example_lookup env_port_taken eq_refl eq_refl eq_refl eq_refl)
         (example_wf env_port_taken) eq_refl))
      "listen tcp :5053: bind: address already in use" eq_refl))).
Defined.

(** * Contexts *)

(** X10.  Whether the dial succeeds or fails, [Start] derives exactly one
    context, the timeout context of the dial, and releases exactly that one
    before it returns.  Every context that existed before, the shared
    context of the proxy among them, is cancelled after [Start] if and only
    if it was before. *)
Theorem Start_releases_only_its_dial_context (w : World) (p : loc)
  (v : Proxy) :
  heap w !! p = Some v ->
  wf_proxy v ->
  cancelled (final (Start p w)) = next_ctx w :: cancelled w /\
  next_ctx (final (Start p w)) = S (next_ctx w) /\
  forall c i,
    ctx_id c = Some i -> (i < next_ctx w)%nat ->
    is_cancelled c (final (Start p w)) = is_cancelled c w.
Proof.
  intros Hp Hwf.
  assert (Hfinal : cancelled (final (Start p w)) = next_ctx w :: cancelled w /\
                   next_ctx (final (Start p w)) = S (next_ctx w)).
  { unfold Start.
    destruct (DialContext_err (env w) (MasterAddress (env w))) as [e|] eqn:Hd.
    - rewrite (runs_final _ _ _ _ _ (startProxy_fails p w e Hd)).
      split; reflexivity.
    - rewrite (runs_final _ _ _ _ _ (startProxy_ok p w v Hd Hp Hwf)).
      split; reflexivity. }
  destruct Hfinal as [Hc Hn]. split; [ exact Hc | ]. split; [ exact Hn | ].
  intros c i Hid Hlt. unfold is_cancelled. rewrite Hid, Hc.
  apply bool_decide_ext. rewrite elem_of_cons. split.
  - intros [-> | Hin]; [ lia | exact Hin ].
  - intros Hin. right. exact Hin.
Qed.

Lemma Start_releases_only_its_dial_context_witness :
  cancelled (final (Start 1%nat (example_world env0))) =
    next_ctx (example_world env0) :: cancelled (example_world env0) /\
  is_cancelled (WithCancel 0 Background)
    (final (Start 1%nat (example_world env0))) =
  is_cancelled (WithCancel 0 Background) (example_world env0).
Proof.
  destruct (Start_releases_only_its_dial_context (example_world env0) 1%nat
              (example_proxy env0)
              (example_lookup env0 eq_refl eq_refl eq_refl eq_refl)
              (example_wf env0)) as (Hc & _ & Hk).
  split; [ exact Hc | ].
  apply (Hk (WithCancel 0 Background) 0%nat eq_refl).
  vm_compute. lia.
Defined.

(** * The proxy stays sound *)

Lemma same_components_refl v : same_components v v.
Proof. repeat split. Qed.

(** The heap away from [p] after updates at [p]. *)
Ltac frame_tac :=
  let q := fresh "q" in
  let Hq := fresh "Hq" in
  intros q Hq;
  unfold after_start, after_connect, after_dial, after_close, serving_world;
  world_simpl;
  rewrite ?lookup_insert_ne
    by (let H := fresh in intros H; apply Hq; symmetry; exact H);
  reflexivity.

(** X11.  Every operation on a proxy made by [CreateProxy] leaves it sound:
    after [Start], [Close], a registration of callbacks, or the endpoint
    routine, the proxy still has all six components, the same ones, the same
    shared context and cancel function, and a counter that is not negative;
    no other cell of the heap is touched.  So the preconditions of [Start]
    and [Close] hold again after each of them. *)
Theorem operations_keep_proxy_sound (w : World) (p : loc) (v : Proxy)
  (cbs : list Callback) :
  heap w !! p = Some v ->
  wf_proxy v ->
  keeps_proxy_sound (Start p) w p v /\
  keeps_proxy_sound (Close p) w p v /\
  keeps_proxy_sound (AddStartCallback p cbs) w p v /\
  keeps_proxy_sound (AddCloseCallback p cbs) w p v /\
  (0 < proxyLoopWg v -> keeps_proxy_sound (grpcLoop p) w p v).
Proof.
  intros Hp Hwf. unfold keeps_proxy_sound.
  split; [ | split; [ | split; [ | split ] ] ].
  - unfold Start.
    destruct (DialContext_err (env w) (MasterAddress (env w))) as [e|] eqn:Hd.
    + rewrite (runs_final _ _ _ _ _ (startProxy_fails p w e Hd)).
      split; [ | frame_tac ].
      exists v. split; [ exact Hp | ].
      split; [ exact Hwf | apply same_components_refl ].
    + rewrite (runs_final _ _ _ _ _ (startProxy_ok p w v Hd Hp Hwf)).
      split; [ | frame_tac ].
      exists (started_proxy w v). split; [ apply lookup_after_start | ].
      split; [ apply started_proxy_wf; exact Hwf | repeat split ].
  - rewrite (runs_final _ _ _ _ _ (Close_runs p w v Hp Hwf)).
    split; [ | frame_tac ].
    exists v. split; [ exact Hp | ].
    split; [ exact Hwf | apply same_components_refl ].
  - rewrite (runs_final _ _ _ _ _ (AddStartCallback_runs p w v cbs Hp)).
    split; [ | frame_tac ].
    eexists. split; [ apply lookup_stored | ].
    split; [ | repeat split ].
    destruct Hwf as [Hn Hwg]. split; [ | exact Hwg ].
    intros c. rewrite <- (Hn c). destruct c; reflexivity.
  - rewrite (runs_final _ _ _ _ _ (AddCloseCallback_runs p w v cbs Hp)).
    split; [ | frame_tac ].
    eexists. split; [ apply lookup_stored | ].
    split; [ | repeat split ].
    destruct Hwf as [Hn Hwg]. split; [ | exact Hwg ].
    intros c. rewrite <- (Hn c). destruct c; reflexivity.
  - intros Hwg. destruct Hwf as [Hn Hwg0].
    destruct (Listen_err (env w) "tcp" ":5053") as [e|] eqn:Hl.
    + rewrite (runs_final _ _ _ _ _ (grpcLoop_listen_fails p w e Hl)).
      split; [ | frame_tac ].
      exists v. split; [ exact Hp | ].
      split; [ split; assumption | apply same_components_refl ].
    + destruct (Serve_err (env w)) as [e|] eqn:Hs.
      * rewrite (runs_final _ _ _ _ _ (grpcLoop_serve_fails p w v e Hl Hp Hs)).
        split; [ | frame_tac ].
        eexists. split; [ apply lookup_stored | ].
        split; [ | repeat split ].
        split; [ | exact Hwg0 ].
        intros c. rewrite <- (Hn c). destruct c; reflexivity.
      * rewrite (runs_final _ _ _ _ _ (grpcLoop_ok p w v Hl Hp Hs Hwg)).
        split; [ | frame_tac ].
        eexists. split; [ apply lookup_stored | ].
        split; [ | repeat split ].
        split; [ | cbn; lia ].
        intros c. rewrite <- (Hn c). destruct c; reflexivity.
Qed.

Lemma operations_keep_proxy_sound_witness :
  keeps_proxy_sound (Start 1%nat) (example_world env0) 1%nat
    (example_proxy env0) /\
  keeps_proxy_sound (Close 1%nat) (example_world env0) 1%nat
    (example_proxy env0).
Proof.
  destruct (operations_keep_proxy_sound (example_world env0) 1%nat
              (example_proxy env0) []
              (example_lookup env0 eq_refl eq_refl eq_refl eq_refl)
              (example_wf env0)) as (Hs & Hc & _).
  split; [ exact Hs | exact Hc ].
Defined.

(** * Operations in sequence *)







